(** * AKUH health-service scraper and uploader: a shallow embedding

    The development follows the three Python sources
    [akuh_scraper.py], [akuh_uploader.py] and [akuh_scrape_and_upload.py].

    - Python [str] values are sequences of Unicode code points; they are
      modelled as [list N].  The sources manipulate U+200B and U+00A0, so
      an 8-bit character type would not do.
    - A parsed document (a BeautifulSoup tree) is a rose tree of tags,
      text nodes and comments; the queries the extractors use ([find],
      [find_all], [select_one], [get_text], [get], [parent]) are written
      out over that tree.
    - The publishing loop threads its counters and the trace of remote
      calls through an explicit state.  *)

From Stdlib Require Import ZArith NArith List Ascii String Bool Lia.
From Stdlib Require Import DecimalString.
From Stdlib Require DecimalPos DecimalZ.
From stdpp Require Import base decidable countable gmap list.

Import ListNotations.
Open Scope N_scope.
Open Scope list_scope.

(** ** Python strings *)

Module PyStr.

Definition char := N.
Definition str := list char.

(** An ASCII literal of the source as a sequence of code points. *)
Definition lit (s : string) : str :=
  List.map N_of_ascii (list_ascii_of_string s).

Definition eqb_str (a b : str) : bool :=
  if decide (a = b) then true else false.

(** [Py_UNICODE_ISSPACE]: the characters [str.strip()] removes and the
    regular-expression class [\s] matches on [str] patterns. *)
Definition is_space (c : char) : bool :=
  ((9 <=? c) && (c <=? 13)) || ((28 <=? c) && (c <=? 32))
  || (c =? 133) || (c =? 160) || (c =? 5760)
  || ((8192 <=? c) && (c <=? 8202))
  || (c =? 8232) || (c =? 8233) || (c =? 8239) || (c =? 8287)
  || (c =? 12288).

Definition ZWSP : char := 8203.   (* U+200B, zero-width space *)
Definition NBSP : char := 160.    (* U+00A0, non-breaking space *)
Definition SP : char := 32.       (* U+0020 *)
Definition HYPHEN : char := 45.   (* U+002D *)

(** [s.replace(c, '')] for a one-character [c]. *)
Fixpoint remove_char (c : char) (s : str) : str :=
  match s with
  | [] => []
  | x :: t => if x =? c then remove_char c t else x :: remove_char c t
  end.

(** [s.replace(a, b)] for one-character [a] and [b]. *)
Fixpoint replace_char (a b : char) (s : str) : str :=
  match s with
  | [] => []
  | x :: t => (if x =? a then b else x) :: replace_char a b t
  end.

(** [re.sub(r'[...]+', r, s)] for a character class given as a predicate:
    every maximal run of class characters becomes the one character [r].
    The replacement is emitted at the last character of the run. *)
Fixpoint sub_runs (p : char -> bool) (r : char) (s : str) : str :=
  match s with
  | [] => []
  | c :: t =>
      if p c then
        match t with
        | [] => [r]
        | d :: _ => if p d then sub_runs p r t else r :: sub_runs p r t
        end
      else c :: sub_runs p r t
  end.

(** [re.sub(r'\s+', ' ', s)]. *)
Definition sub_ws (s : str) : str := sub_runs is_space SP s.

(** [s.lstrip(...)] and [s.rstrip(...)] for a set of characters given as a
    predicate; [strip] removes at both ends. *)
Fixpoint lstrip (p : char -> bool) (s : str) : str :=
  match s with
  | [] => []
  | c :: t => if p c then lstrip p t else s
  end.

Fixpoint rstrip (p : char -> bool) (s : str) : str :=
  match s with
  | [] => []
  | c :: t =>
      match rstrip p t with
      | [] => if p c then [] else [c]
      | t' => c :: t'
      end
  end.

Definition strip (p : char -> bool) (s : str) : str := rstrip p (lstrip p s).

(** [needle in hay] on strings: [needle] occurs as a contiguous block. *)
Fixpoint startswith (s prefix : str) : bool :=
  match prefix, s with
  | [], _ => true
  | _ :: _, [] => false
  | p :: ps, c :: cs => (c =? p) && startswith cs ps
  end.

Fixpoint contains (hay needle : str) : bool :=
  startswith hay needle ||
  match hay with
  | [] => false
  | _ :: t => contains t needle
  end.

Definition endswith (s suffix : str) : bool :=
  startswith (rev s) (rev suffix).

(** Python truthiness of a string. *)
Definition truthy (s : str) : bool :=
  match s with [] => false | _ => true end.

End PyStr.

Import PyStr.

(** ** Text normalizer *)

(** [clean_text] of both scraper sources. *)
Definition clean_text (text : str) : str :=
  let text := remove_char ZWSP text in
  let text := replace_char NBSP SP text in
  let text := sub_ws text in
  strip is_space text.


(** ** The parts of the Unicode database the sources rely on

    [str.lower()], the regular-expression classes [\d] and [\w] and
    [str.isprintable()] (used by [repr]) are table-driven in CPython.  The
    tables are not part of the repository, so they are an interface; the
    properties below hold for every implementation of it. *)

Class UnicodeDB := {
  lower : str -> str;            (* str.lower() *)
  is_digit : char -> bool;       (* \d on str patterns *)
  is_word : char -> bool;        (* \w on str patterns *)
  is_printable : char -> bool    (* Py_UNICODE_ISPRINTABLE, non-ASCII part *)
}.

(** The ASCII fragment of the tables, used to run the model on ASCII
    inputs. *)
Definition ascii_lower_char (c : char) : char :=
  if (65 <=? c) && (c <=? 90) then c + 32 else c.

Definition ascii_is_digit (c : char) : bool := (48 <=? c) && (c <=? 57).

Definition ascii_is_word (c : char) : bool :=
  ascii_is_digit c || ((65 <=? c) && (c <=? 90))
  || ((97 <=? c) && (c <=? 122)) || (c =? 95).

#[export] Instance ascii_db : UnicodeDB := {|
  lower := List.map ascii_lower_char;
  is_digit := ascii_is_digit;
  is_word := ascii_is_word;
  is_printable := fun _ => true
|}.

(** ** Document trees *)

Module Dom.

(** A node of the parsed tree.  [NText] is a string that counts as text;
    [NComment] stands for every string [get_text] leaves out (a comment, a
    declaration, the content of a script or style element).  [class] is
    the one multi-valued attribute the extractors read: the parser stores
    it as the list of its whitespace-separated tokens ([None] when the
    attribute is absent).  The other attributes are strings. *)
#[warnings="-register-all"]
Inductive node : Type :=
| NText (s : str)
| NComment (s : str)
| NTag (name : str) (class : option (list str))
       (attrs : list (str * str)) (contents : list node).

(** Induction over a tree, with the hypothesis for every child of a tag. *)
Section NodeInduction.

Variable P : node -> Prop.
Hypothesis Htext : forall s, P (NText s).
Hypothesis Hcomment : forall s, P (NComment s).
Hypothesis Htag :
  forall nm cls attrs cs, List.Forall P cs -> P (NTag nm cls attrs cs).

Fixpoint node_induction (n : node) : P n :=
  match n with
  | NText s => Htext s
  | NComment s => Hcomment s
  | NTag nm cls attrs cs =>
      Htag nm cls attrs cs
        ((fix children (l : list node) : List.Forall P l :=
            match l with
            | [] => @List.Forall_nil node P
            | c :: t =>
                @List.Forall_cons node P c t (node_induction c) (children t)
            end) cs)
  end.

End NodeInduction.

(** The [BeautifulSoup] object itself: a tag named [[document]]. *)
Definition BeautifulSoup (contents : list node) : node :=
  NTag (lit "[document]") None [] contents.

Definition name_of (n : node) : option str :=
  match n with NTag nm _ _ _ => Some nm | _ => None end.

Definition class_of (n : node) : option (list str) :=
  match n with NTag _ c _ _ => c | _ => None end.

Fixpoint assoc (k : str) (l : list (str * str)) : option str :=
  match l with
  | [] => None
  | (k', v) :: t => if eqb_str k k' then Some v else assoc k t
  end.

(** [tag.get(k)] for a single-valued attribute. *)
Definition get (n : node) (k : str) : option str :=
  match n with NTag _ _ a _ => assoc k a | _ => None end.

(** [tag.get(k, '')]. *)
Definition get_or_empty (n : node) (k : str) : str :=
  match get n k with Some v => v | None => [] end.

(** An element together with the chain of its ancestors, nearest first;
    this is what [parent] and [find_parent] walk. *)
Record elem := Elem { ancestors : list node; self : node }.

(** All descendants of [n] in document order, [n] itself excluded. *)
Fixpoint walk (anc : list node) (n : node) : list elem :=
  match n with
  | NTag _ _ _ cs =>
      flat_map (fun c => Elem (n :: anc) c :: walk (n :: anc) c) cs
  | _ => []
  end.

Definition descendants (e : elem) : list elem := walk (ancestors e) (self e).

Definition root (soup : node) : elem := Elem [] soup.

Definition has_name (nm : str) (e : elem) : bool :=
  match name_of (self e) with
  | Some x => eqb_str x nm
  | None => false
  end.

(** [e.find_all(name)] and [e.find_all(name, <filter>)]. *)
Definition find_all (e : elem) (nm : str) : list elem :=
  List.filter (has_name nm) (descendants e).

Definition find_all_where (e : elem) (nm : str) (p : elem -> bool)
  : list elem :=
  List.filter (fun x => has_name nm x && p x) (descendants e).

(** [e.find(name)]: the first result of [find_all], or [None]. *)
Definition find (e : elem) (nm : str) : option elem :=
  head (find_all e nm).

Definition find_where (e : elem) (nm : str) (p : elem -> bool)
  : option elem :=
  head (find_all_where e nm p).

(** A [Tag] is truthy whatever its contents; only [None] is falsy. *)
Definition tag_truthy (o : option elem) : bool :=
  match o with Some _ => true | None => false end.

(** [tag.get_text()]: the text nodes below the tag, concatenated;
    comments do not contribute. *)
Fixpoint get_text (n : node) : str :=
  match n with
  | NText s => s
  | NComment _ => []
  | NTag _ _ _ cs => flat_map get_text cs
  end.

(** The filter [href=True]: the attribute is there. *)
Definition has_href (e : elem) : bool :=
  match get (self e) (lit "href") with Some _ => true | None => false end.

(** [e.find_parent(names)]: the nearest ancestor whose name is listed. *)
Fixpoint nearest_named (names : list str) (anc : list node) : option elem :=
  match anc with
  | [] => None
  | a :: up =>
      match name_of a with
      | Some nm =>
          if existsb (eqb_str nm) names then Some (Elem up a)
          else nearest_named names up
      | None => nearest_named names up
      end
  end.

Definition find_parent (e : elem) (names : list str) : option elem :=
  nearest_named names (ancestors e).

(** The CSS selectors the sources pass to [select_one]. *)
Inductive selector :=
| SelTag (nm : str)                       (* article *)
| SelTagClass (nm cls : str)              (* div.ContentMain *)
| SelTagAttr (nm key value : str).        (* div[role="main"] *)

Definition sel_matches (s : selector) (e : elem) : bool :=
  match s with
  | SelTag nm => has_name nm e
  | SelTagClass nm cls =>
      has_name nm e &&
      match class_of (self e) with
      | Some toks => existsb (eqb_str cls) toks
      | None => false
      end
  | SelTagAttr nm k v =>
      has_name nm e &&
      match get (self e) k with
      | Some x => eqb_str x v
      | None => false
      end
  end.

Definition select_one (e : elem) (s : selector) : option elem :=
  head (List.filter (sel_matches s) (descendants e)).

(** [sep.join(l)]. *)
Fixpoint join (sep : str) (l : list str) : str :=
  match l with
  | [] => []
  | [x] => x
  | x :: t => x ++ sep ++ join sep t
  end.

(** How the parser library matches a function filter against [class]:
    against every token, then against the tokens joined by a space; an
    absent attribute is passed as [None], which the lambdas of the sources
    reject. *)
Definition class_matches (f : str -> bool) (e : elem) : bool :=
  match class_of (self e) with
  | Some toks => existsb f toks || f (join [SP] toks)
  | None => false
  end.

End Dom.

Import Dom.

(** ** Title *)

(** [extract_title] of both scraper sources. *)
Definition extract_title (soup : node) : str :=
  match find (root soup) (lit "h1") with
  | Some h1 => clean_text (get_text (self h1))
  | None =>
      match find (root soup) (lit "h2") with
      | Some h2 => clean_text (get_text (self h2))
      | None => lit "Untitled"
      end
  end.

(** ** Faculty links *)

Record faculty_link := FacultyLink {
  fl_text : str;
  fl_url : str;
  fl_specialty : str
}.

Record faculty_group := FacultyGroup {
  fg_count : Z;
  fg_pattern : str;
  fg_links : list faculty_link
}.

Fixpoint take_while (p : char -> bool) (s : str) : str :=
  match s with
  | [] => []
  | c :: t => if p c then c :: take_while p t else []
  end.

Definition QUESTION : char := 63.
Definition AMP : char := 38.

(** The pattern [[?&]Spec=([^&]+)] tried at the head of [s]; the result is
    group 1. *)
Definition match_spec_here (s : str) : option str :=
  match s with
  | c :: t =>
      if ((c =? QUESTION) || (c =? AMP)) && startswith t (lit "Spec=") then
        match take_while (fun x => negb (x =? AMP)) (skipn 5 t) with
        | [] => None
        | g => Some g
        end
      else None
  | [] => None
  end.

(** [re.search]: the leftmost position at which the pattern matches. *)
Fixpoint re_search (here : str -> option str) (s : str) : option str :=
  match here s with
  | Some m => Some m
  | None =>
      match s with
      | [] => None
      | _ :: t => re_search here t
      end
  end.

(** [extract_specialty_from_url]. *)
Definition extract_specialty_from_url (url : str) : str :=
  match re_search match_spec_here url with
  | Some g => g
  | None => []
  end.

Definition FINDADOCTOR : str := lit "/findadoctor.aspx".

(** The value of [l.get('_elem')] for an entry of [faculty_links]: the
    entries have no such key, so it is always [None]. *)
Inductive py_none := PyNone.

(** [link in [None, ...]]: a tag never equals [None]. *)
Definition tag_in_nones (l : list py_none) : bool := existsb (fun _ => false) l.

(** The remove-duplicates loop: [seen] is the Python set of keys, the
    second component is [unique_links]. *)
Definition dedup_step (st : gset (str * str) * list faculty_link)
  (link : faculty_link) : gset (str * str) * list faculty_link :=
  let key := (fl_url link, fl_text link) in
  if decide (key ∈ st.1) then st
  else ({[ key ]} ∪ st.1, st.2 ++ [link]).

Definition remove_duplicates (links : list faculty_link) : list faculty_link :=
  (fold_left dedup_step links (∅, [])).2.

Section Extractors.

Context `{db : UnicodeDB}.

(** Pattern 1: an [h4] whose first link with an [href] goes to the
    doctor-search page. *)
Definition faculty_pattern1 (soup : node) : list faculty_link :=
  flat_map
    (fun h4 =>
       match find_where h4 (lit "a") has_href with
       | Some link =>
           if contains (get_or_empty (self link) (lit "href")) FINDADOCTOR
           then
             let text := clean_text (get_text (self link)) in
             let url := get_or_empty (self link) (lit "href") in
             [FacultyLink text url (extract_specialty_from_url url)]
           else []
       | None => []
       end)
    (find_all (root soup) (lit "h4")).

(** Pattern 2: one iteration of the loop over all links with an [href];
    [faculty_links] is the list built so far. *)
Definition faculty_pattern2_step (faculty_links : list faculty_link)
  (link : elem) : list faculty_link :=
  let href := get_or_empty (self link) (lit "href") in
  let text := clean_text (get_text (self link)) in
  if contains href FINDADOCTOR
     && negb (tag_in_nones (List.map (fun _ => PyNone) faculty_links))
  then
    if contains text (lit "Meet our") || contains text (lit "Find a Doctor")
       || contains (lower text) (lit "faculty")
    then faculty_links ++ [FacultyLink text href (extract_specialty_from_url href)]
    else faculty_links
  else faculty_links.

Definition collect_faculty_links (soup : node) : list faculty_link :=
  fold_left faculty_pattern2_step
    (find_all_where (root soup) (lit "a") has_href)
    (faculty_pattern1 soup).

(** [extract_faculty_links] of both scraper sources. *)
Definition extract_faculty_links (soup : node) : faculty_group :=
  let unique_links := remove_duplicates (collect_faculty_links soup) in
  let n := length unique_links in
  let pattern :=
    if (n =? 1)%nat then lit "single"
    else if (1 <? n)%nat then lit "multiple"
    else lit "none" in
  FacultyGroup (Z.of_nat n) pattern unique_links.

(** ** Appointment block *)

Record click_here_link := ClickHereLink {
  chl_present : bool;
  chl_text : str;
  chl_url : str
}.

Record family_hifazat := FamilyHifazat {
  main_link_present : bool;
  google_play_button : bool;
  app_store_button : bool
}.

Record components := Components {
  heading : str;
  click_here : click_here_link;
  phone_number : str;
  hifazat : family_hifazat
}.

Record appointment := Appointment {
  ap_present : bool;
  ap_components : components
}.

(** The dictionary [extract_appointment_section] starts from. *)
Definition appointment_default : appointment :=
  Appointment false
    (Components [] (ClickHereLink false [] []) []
       (FamilyHifazat false false false)).

Definition LPAREN : char := 40.
Definition RPAREN : char := 41.

(** A word of the shape [\(\d{3}\)\d{3}\d{6}]. *)
Definition phone_shape (w : str) : bool :=
  match w with
  | a :: d1 :: d2 :: d3 :: b :: rest =>
      (a =? LPAREN) && is_digit d1 && is_digit d2 && is_digit d3
      && (b =? RPAREN) && (length rest =? 9)%nat && forallb is_digit rest
  | _ => false
  end.

Definition match_phone_here (s : str) : option str :=
  let w := firstn 14 s in
  if phone_shape w then Some w else None.

(** The test of the paragraph loop. *)
Definition mentions_request (text : str) : bool :=
  contains text (lit "Request an Appointment")
  || contains (lower text) (lit "request an appointment").

(** The body of the loop for the paragraph that passes the test. *)
Definition appointment_of (p : elem) : appointment :=
  let text := clean_text (get_text (self p)) in
  let phone :=
    match re_search match_phone_here text with
    | Some m => m
    | None => []
    end in
  let click :=
    match find_where p (lit "a") has_href with
    | Some click_link =>
        ClickHereLink true (clean_text (get_text (self click_link)))
          (get_or_empty (self click_link) (lit "href"))
    | None => ClickHereLink false [] []
    end in
  let main :=
    contains text (lit "Family Hifazat")
    || contains (lower text) (lit "family hifazat") in
  let srcs :=
    List.map (fun img => lower (get_or_empty (self img) (lit "src")))
      (find_all p (lit "img")) in
  let google :=
    existsb (fun src => contains src (lit "google play")
                        || contains src (lit "playstore")) srcs in
  let apple :=
    existsb (fun src => contains src (lit "app store")
                        || contains src (lit "appstore")) srcs in
  Appointment true
    (Components (lit "Request an Appointment") click phone
       (FamilyHifazat main google apple)).

(** The loop over the paragraphs, left at the first one that passes. *)
Fixpoint scan_paragraphs (ps : list elem) : appointment :=
  match ps with
  | [] => appointment_default
  | p :: rest =>
      if mentions_request (clean_text (get_text (self p)))
      then appointment_of p
      else scan_paragraphs rest
  end.

(** [extract_appointment_section] of both scraper sources. *)
Definition extract_appointment_section (soup : node) : appointment :=
  scan_paragraphs (find_all (root soup) (lit "p")).

End Extractors.

(** ** Rendering of values with [str()] *)

Module PyRepr.

Definition QUOTE : char := 39.      (* ' *)
Definition DQUOTE : char := 34.     (* double quote *)
Definition BACKSLASH : char := 92.

Definition hex_digit (n : N) : char :=
  if n <? 10 then 48 + n else 87 + n.   (* 0-9, a-f *)

(** [width] hexadecimal digits of [n], most significant first. *)
Fixpoint hex (width : nat) (n : N) : str :=
  match width with
  | O => []
  | S w => hex w (n / 16) ++ [hex_digit (n mod 16)]
  end.

Section Repr.

Context `{db : UnicodeDB}.

(** One character of [repr(s)], for the chosen quote character. *)
Definition repr_char (quote : char) (c : char) : str :=
  if (c =? quote) || (c =? BACKSLASH) then [BACKSLASH; c]
  else if c =? 9 then lit "\t"
  else if c =? 10 then lit "\n"
  else if c =? 13 then lit "\r"
  else if (c <? 32) || (c =? 127) then lit "\x" ++ hex 2 c
  else if c <? 127 then [c]
  else if is_printable c then [c]
  else if c <=? 255 then lit "\x" ++ hex 2 c
  else if c <=? 65535 then lit "\u" ++ hex 4 c
  else lit "\U" ++ hex 8 c.

(** [repr(s)] for a string: single quotes, unless the string has a single
    quote and no double quote. *)
Definition repr_str (s : str) : str :=
  let quote :=
    if existsb (N.eqb QUOTE) s && negb (existsb (N.eqb DQUOTE) s)
    then DQUOTE else QUOTE in
  [quote] ++ flat_map (repr_char quote) s ++ [quote].

(** [str(l)] for a list of strings. *)
Definition str_of_list (l : list str) : str :=
  lit "[" ++ join (lit ", ") (List.map repr_str l) ++ lit "]".

(** [str(tag.get('class', ''))]. *)
Definition str_of_class (n : node) : str :=
  match class_of n with
  | Some toks => str_of_list toks
  | None => []
  end.

End Repr.

End PyRepr.

Import PyRepr.

(** ** External links *)

Record external_link := ExternalLink {
  el_text : str;
  el_url : str;
  el_type : str
}.

Definition DOCUMENT_EXTENSIONS : list str :=
  [lit ".pdf"; lit ".doc"; lit ".docx"; lit ".xlsx"].

(** The classification of a link from its [href]. *)
Definition link_type (href : str) : str :=
  if startswith href (lit "http") && negb (contains href (lit "aku.edu"))
  then lit "external"
  else if existsb (endswith href) DOCUMENT_EXTENSIONS
  then lit "document"
  else lit "internal".

Section ExternalLinks.

Context `{db : UnicodeDB}.

(** ['breadcrumb' in str(link.parent.get('class', ''))].  The links come
    from [find_all], so their chain of ancestors is never empty. *)
Definition parent_is_breadcrumb (link : elem) : bool :=
  match ancestors link with
  | parent :: _ => contains (str_of_class parent) (lit "breadcrumb")
  | [] => false
  end.

(** The body of the loop of [extract_external_links] for one link: the
    entry it appends, if any. *)
Definition external_link_of (link : elem) : list external_link :=
  let href := get_or_empty (self link) (lit "href") in
  let text := clean_text (get_text (self link)) in
  if negb (truthy text) || negb (truthy href) then []
  else if contains href FINDADOCTOR || parent_is_breadcrumb link then []
  else [ExternalLink text href (link_type href)].

(** [extract_external_links] of both scraper sources. *)
Definition extract_external_links (soup : node) : list external_link :=
  flat_map external_link_of (find_all_where (root soup) (lit "a") has_href).

End ExternalLinks.

(** ** Page classifier *)

Record subsection_group := SubsectionGroup {
  sg_present : bool;
  sg_count : Z;
  sg_links : list (str * str)
}.

(** The dictionary [extract_body_content] returns.  The key
    [has_appointment_section] exists only in the combined script. *)
Record body_content := BodyContent {
  main_paragraphs : str;
  has_appointment_section : option bool;
  word_count : Z;
  has_subheadings : bool;
  subheading_tags : list str;
  has_bullet_lists : bool;
  has_collapsible_sections : bool
}.

(** The dictionary [scrape_page] assembles. *)
Record page_data := PageData {
  pd_url : str;
  pd_page_title : str;
  pd_breadcrumb : str;
  pd_has_h1_title : bool;
  pd_body_content : body_content;
  pd_subsection_links : subsection_group;
  pd_faculty_links : faculty_group;
  pd_appointment_section : appointment;
  pd_external_links : list external_link
}.

(** [classify_page_type] of both scraper sources. *)
Definition classify_page_type (data : page_data) : str :=
  if sg_present (pd_subsection_links data) then lit "parent_overview"
  else if negb (pd_has_h1_title data) then lit "service_complex"
  else if has_collapsible_sections (pd_body_content data)
  then lit "service_complex"
  else if (fg_count (pd_faculty_links data) >? 3)%Z then lit "multi_specialty"
  else if (fg_count (pd_faculty_links data) =? 1)%Z
          && negb (ap_present (pd_appointment_section data))
  then lit "simple"
  else if has_subheadings (pd_body_content data)
          && (fg_count (pd_faculty_links data) =? 0)%Z
  then lit "structured"
  else lit "standard".

(** The decision list of the specification, as data: rules are tried from
    the top and the first one whose test passes gives the result. *)
Definition decision_list : list ((page_data -> bool) * str) :=
  [ (fun d => sg_present (pd_subsection_links d), lit "parent_overview");
    (fun d => negb (pd_has_h1_title d), lit "service_complex");
    (fun d => has_collapsible_sections (pd_body_content d),
     lit "service_complex");
    (fun d => (3 <? fg_count (pd_faculty_links d))%Z, lit "multi_specialty");
    (fun d => (fg_count (pd_faculty_links d) =? 1)%Z
              && negb (ap_present (pd_appointment_section d)),
     lit "simple");
    (fun d => has_subheadings (pd_body_content d)
              && (fg_count (pd_faculty_links d) =? 0)%Z,
     lit "structured") ].

Fixpoint first_match (rules : list ((page_data -> bool) * str))
  (otherwise : str) (d : page_data) : str :=
  match rules with
  | [] => otherwise
  | (test, result) :: rest =>
      if test d then result else first_match rest otherwise d
  end.

Definition PAGE_TYPES : list str :=
  [lit "parent_overview"; lit "service_complex"; lit "multi_specialty";
   lit "simple"; lit "structured"; lit "standard"].

(** ** Body content *)

(** A Python call that may raise: attribute access on [None] raises
    [AttributeError]. *)
Inductive result (A : Type) : Type :=
| Ok (a : A)
| AttributeError.

Arguments Ok {A} a.
Arguments AttributeError {A}.

(** [x.attr] where [x] may be [None]. *)
Definition deref {A : Type} (o : option A) : result A :=
  match o with Some a => Ok a | None => AttributeError end.

Definition COPYRIGHT : char := 169.

Definition EXCLUDED_SECTIONS : list str :=
  [lit "Resources and Information"; lit "Quick Links";
   lit "Website Policies";
   COPYRIGHT :: lit " The Aga Khan University Hospital"].

Definition CONTENT_SELECTORS : list selector :=
  [SelTagClass (lit "div") (lit "ContentMain");
   SelTagClass (lit "div") (lit "MainContentZone");
   SelTagAttr (lit "div") (lit "role") (lit "main");
   SelTag (lit "article");
   SelTag (lit "main")].

(** [s.split()]: the maximal blocks of characters that are not whitespace.
    [cur] is the block being read, last character first. *)
Fixpoint split_ws_from (cur : str) (s : str) : list str :=
  match s with
  | [] => match cur with [] => [] | _ => [rev cur] end
  | c :: t =>
      if is_space c then
        match cur with
        | [] => split_ws_from [] t
        | _ => rev cur :: split_ws_from [] t
        end
      else split_ws_from (c :: cur) t
  end.

Definition split_ws (s : str) : list str := split_ws_from [] s.

Definition NEWLINE : char := 10.

Section Body.

Context `{db : UnicodeDB}.

(** The selector loop: the first selector of the list, in list order,
    that selects something. *)
Fixpoint first_selected (soup : elem) (sels : list selector) : option elem :=
  match sels with
  | [] => None
  | sel :: rest =>
      match select_one soup sel with
      | Some e => Some e
      | None => first_selected soup rest
      end
  end.

(** [lambda x: x and any(c in str(x).lower() for c in [...])]. *)
Definition class_hint (x : str) : bool :=
  truthy x &&
  existsb (fun c => contains (lower x) c)
    [lit "content"; lit "main"; lit "body"; lit "article"].

(** [div.find('p') or div.find('h1') or div.find('h2')]. *)
Definition holds_text (div : elem) : bool :=
  tag_truthy (find div (lit "p")) || tag_truthy (find div (lit "h1"))
  || tag_truthy (find div (lit "h2")).

(** The fallback loop over the class-hinted [div]s. *)
Definition fallback_container (soup : elem) : option elem :=
  head (List.filter holds_text
          (find_all_where soup (lit "div") (class_matches class_hint))).

(** [soup.body if soup.body else soup]. *)
Definition body_or_root (soup : elem) : elem :=
  match find soup (lit "body") with
  | Some b => b
  | None => soup
  end.

(** The value of the variable [content_div] after the selector loop and
    the two [if not content_div] blocks. *)
Definition locate_content (soup : node) : option elem :=
  let content_div := first_selected (root soup) CONTENT_SELECTORS in
  let content_div :=
    if tag_truthy content_div then content_div
    else fallback_container (root soup) in
  if tag_truthy content_div then content_div
  else Some (body_or_root (root soup)).

(** The paragraph loop. *)
Definition body_paragraphs (content_div : elem) : list str :=
  flat_map
    (fun p =>
       let text := clean_text (get_text (self p)) in
       if truthy text && (10 <? length text)%nat then
         if negb (existsb (contains text) EXCLUDED_SECTIONS) then [text]
         else []
       else [])
    (find_all content_div (lit "p")).

Definition subheadings_of (content_div : elem) : list str :=
  List.filter (fun tag => tag_truthy (find content_div tag))
    [lit "h2"; lit "h3"; lit "h4"; lit "h5"; lit "h6"].

Definition bullet_lists_in (content_div : elem) : bool :=
  tag_truthy (find content_div (lit "ul"))
  || tag_truthy (find content_div (lit "ol")).

(** [id=lambda x: x and 'collapse' in x.lower()]. *)
Definition collapse_id (e : elem) : bool :=
  match get (self e) (lit "id") with
  | Some x => truthy x && contains (lower x) (lit "collapse")
  | None => false
  end.

Definition collapsible_in (content_div : elem) : bool :=
  tag_truthy (find_where content_div (lit "h4") collapse_id).

Definition PHONE : str := lit "(021)111911911".
Definition PHONE_SPACED : str := lit "(021) 111911911".
Definition REQUEST : str := lit "Request an Appointment".
Definition HIFAZAT : str := lit "Family Hifazat".

(** First tier of the appointment check of the combined script: an
    emphasised request whose enclosing block names the phone number or the
    application. *)
Definition appointment_by_strong (content_div : elem) : bool :=
  existsb
    (fun strong =>
       contains (clean_text (get_text (self strong))) REQUEST &&
       match find_parent strong [lit "div"; lit "p"] with
       | Some parent =>
           let parent_text := clean_text (get_text (self parent)) in
           (contains parent_text PHONE || contains parent_text PHONE_SPACED)
           || contains parent_text HIFAZAT
       | None => false
       end)
    (find_all content_div (lit "strong")).

(** Second tier: one extracted paragraph has the request and a detail. *)
Definition appointment_by_paragraph (paragraphs : list str) : bool :=
  existsb
    (fun p =>
       contains p REQUEST &&
       (contains p PHONE || contains p HIFAZAT
        || contains p (lit "Click here") || contains p (lit "call to book")))
    paragraphs.

(** Third tier: the joined text has the request and a detail. *)
Definition appointment_by_text (main_text : str) : bool :=
  contains main_text REQUEST &&
  (contains main_text PHONE || contains main_text HIFAZAT).

Definition appointment_mention (content_div : elem) (paragraphs : list str)
  : bool :=
  let has := appointment_by_strong content_div in
  let has := if negb has then appointment_by_paragraph paragraphs else has in
  if negb has then appointment_by_text (join [NEWLINE; NEWLINE] paragraphs)
  else has.

(** The dictionary built from the located region; [combined] tells the
    combined script from the stand-alone scraper, which has no
    [has_appointment_section] key. *)
Definition body_of (combined : bool) (content_div : elem) : body_content :=
  let paragraphs := body_paragraphs content_div in
  let main_text := join [NEWLINE; NEWLINE] paragraphs in
  let subheadings := subheadings_of content_div in
  BodyContent main_text
    (if combined then Some (appointment_mention content_div paragraphs)
     else None)
    (Z.of_nat (length (split_ws main_text)))
    (match subheadings with [] => false | _ => true end)
    subheadings
    (bullet_lists_in content_div)
    (collapsible_in content_div).

Definition extract_body_content_of (combined : bool) (soup : node)
  : result body_content :=
  match deref (locate_content soup) with
  | Ok content_div => Ok (body_of combined content_div)
  | AttributeError => AttributeError
  end.

(** [extract_body_content] of [akuh_scraper.py]. *)
Definition extract_body_content : node -> result body_content :=
  extract_body_content_of false.

(** [extract_body_content] of [akuh_scrape_and_upload.py]. *)
Definition extract_body_content_combined : node -> result body_content :=
  extract_body_content_of true.

(** The locator as the specification words it: the fallback container is
    the first class-hinted [div] that holds a paragraph or a heading of
    any level. *)
Definition holds_paragraph_or_heading (div : elem) : bool :=
  existsb (fun tag => tag_truthy (find div tag))
    [lit "p"; lit "h1"; lit "h2"; lit "h3"; lit "h4"; lit "h5"; lit "h6"].

Definition spec_locate_content (soup : node) : elem :=
  match first_selected (root soup) CONTENT_SELECTORS with
  | Some e => e
  | None =>
      match head (List.filter holds_paragraph_or_heading
                    (find_all_where (root soup) (lit "div")
                       (class_matches class_hint))) with
      | Some e => e
      | None => body_or_root (root soup)
      end
  end.

End Body.

(** ** Slugs *)

(** [s or ""], for an argument that may be [None]. *)
Definition or_empty (o : option str) : str :=
  match o with Some s => s | None => [] end.

(** The slice [s[:n]] for a Python integer [n]: a negative [n] counts from
    the end. *)
Definition slice_to (n : Z) (s : str) : str :=
  if (0 <=? n)%Z then firstn (Z.to_nat n) s
  else firstn (length s - Z.to_nat (- n)) s.

(** The decimal rendering of an integer in an f-string. *)
Definition str_of_Z (z : Z) : str :=
  lit (NilZero.string_of_int (Z.to_int z)).

Definition UNDERSCORE : char := 95.

Definition is_hyphen (c : char) : bool := c =? HYPHEN.

Section Slug.

Context `{db : UnicodeDB}.

(** [slugify] of the uploader and of the combined script.  [now] is the
    value of [int(time.time())] at the call. *)
Definition slugify (s : option str) (max_len : Z) (now : Z) : str :=
  let s := lower (strip is_space (or_empty s)) in
  let s := List.filter (fun c => is_word c || is_space c || is_hyphen c) s in
  let s :=
    strip is_hyphen
      (sub_runs (fun c => is_space c || (c =? UNDERSCORE) || is_hyphen c)
         HYPHEN s) in
  let s := if truthy s then s else lit "service-" ++ str_of_Z now in
  rstrip is_hyphen (slice_to max_len s).

End Slug.

(** ** Publishing *)

Module Publish.

(** What [json.loads] gives for one file of the output folder, as far as
    [run_upload] reads it; a field is [None] when the key is missing or
    null. *)
Record persisted := Persisted {
  js_page_title : option str;
  js_main_paragraphs : option str;
  js_hero_image : option str
}.

Definition asset := str.

(** The operations of the publish adapter that reach the remote service. *)
Inductive call :=
| UploadImage (path : str)
| CreateStory (title description : str) (image : option asset).

Record upload_state := UploadState {
  uploaded_count : Z;
  failed_count : Z;
  calls : list call
}.

Definition initial : upload_state := UploadState 0 0 [].

(** [failed_count += 1; continue]. *)
Definition skip (st : upload_state) : upload_state :=
  UploadState (uploaded_count st) (failed_count st + 1) (calls st).

Section Run.

(** The world outside the program: where a hero image is found on disk,
    and what the remote service answers, given the calls made so far. *)
Variable resolve_hero : str -> str.
Variable image_answer : list call -> str -> option asset.
Variable story_answer : list call -> str -> str -> option asset -> bool.

(** The rest of the loop body once [title] and [description] are set:
    optional image upload, then story creation, then the counters. *)
Definition publish (st : upload_state) (data : persisted)
  (title description : str) : upload_state :=
  let hero := or_empty (js_hero_image data) in
  let '(image_asset, trace) :=
    if truthy hero then
      let hero_path := resolve_hero hero in
      (image_answer (calls st) hero_path,
       calls st ++ [UploadImage hero_path])
    else (None, calls st) in
  let story := story_answer trace title description image_asset in
  let trace := trace ++ [CreateStory title description image_asset] in
  if story then UploadState (uploaded_count st + 1) (failed_count st) trace
  else UploadState (uploaded_count st) (failed_count st + 1) trace.

(** One iteration of the loop of [run_upload] in [akuh_uploader.py].
    [file] is [None] when the file cannot be read or parsed. *)
Definition uploader_step (st : upload_state) (file : option persisted)
  : upload_state :=
  match file with
  | None => skip st
  | Some data =>
      let title := strip is_space (or_empty (js_page_title data)) in
      if negb (truthy title) then skip st
      else
        let description :=
          strip is_space (or_empty (js_main_paragraphs data)) in
        (* an empty description is only logged as a warning *)
        publish st data title description
  end.

(** One iteration of the loop of [run_upload] in
    [akuh_scrape_and_upload.py]. *)
Definition combined_step (st : upload_state) (file : option persisted)
  : upload_state :=
  match file with
  | None => skip st
  | Some data =>
      let title := strip is_space (or_empty (js_page_title data)) in
      if negb (truthy title) then skip st
      else
        let description :=
          strip is_space (or_empty (js_main_paragraphs data)) in
        if negb (truthy description) then skip st
        else publish st data title description
  end.

(** The loops, from the state reached when they start. *)
Definition run_upload (st : upload_state) (files : list (option persisted))
  : upload_state :=
  fold_left uploader_step files st.

Definition run_upload_combined (st : upload_state)
  (files : list (option persisted)) : upload_state :=
  fold_left combined_step files st.

End Run.

(** A record fails validation when its title or its body is empty once
    stripped. *)
Definition invalid (data : persisted) : bool :=
  negb (truthy (strip is_space (or_empty (js_page_title data))))
  || negb (truthy (strip is_space (or_empty (js_main_paragraphs data)))).

End Publish.

(** ** The specification's reading of an external link

    The specification calls a link external when its URL is absolute and
    its host is not the organisation's own domain.  Here an absolute URL
    is [http://] or [https://] followed by an authority that runs up to
    the next slash, question mark or hash; the organisation's own domain is
    [aku.edu] and every host below it. *)

Definition SLASH : char := 47.
Definition HASH : char := 35.

Definition url_host (href : str) : option str :=
  let authority rest :=
    take_while (fun c => negb ((c =? SLASH) || (c =? QUESTION) || (c =? HASH)))
      rest in
  if startswith href (lit "http://") then Some (authority (skipn 7 href))
  else if startswith href (lit "https://") then Some (authority (skipn 8 href))
  else None.

Definition own_domain (host : str) : bool :=
  eqb_str host (lit "aku.edu") || endswith host (lit ".aku.edu").

Definition spec_external (href : str) : bool :=
  match url_host href with
  | Some host => negb (own_domain host)
  | None => false
  end.

Definition spec_link_type (href : str) : str :=
  if spec_external href then lit "external"
  else if existsb (endswith href) DOCUMENT_EXTENSIONS then lit "document"
  else lit "internal".

(** * The other functions of the sources *)

(** ** File names and plain text *)

Definition DOT : char := 46.

(** The character class of [sanitize_filename]: the angle brackets, the
    colon, the double quote, the slash, the backslash, the bar, the
    question mark and the star. *)
Definition forbidden_in_filename (c : char) : bool :=
  (c =? 60) || (c =? 62) || (c =? 58) || (c =? 34) || (c =? 47)
  || (c =? 92) || (c =? 124) || (c =? 63) || (c =? 42).

(** [sanitize_filename] of both scraper sources. *)
Definition sanitize_filename (filename : str) : str :=
  let filename :=
    List.filter (fun c => negb (forbidden_in_filename c)) filename in
  let filename :=
    strip (fun c => (c =? DOT) || (c =? SP))
      (replace_char SP UNDERSCORE filename) in
  if truthy filename then firstn 100 filename else lit "page".

(** [safe_text] of [akuh_uploader.py]. *)
Definition safe_text (s : option str) : str :=
  let s := replace_char NBSP SP (or_empty s) in
  strip is_space (sub_ws s).

(** ** Breadcrumb and subsection links *)

Section MoreExtractors.

Context `{db : UnicodeDB}.

(** [lambda x: x and 'breadcrumb' in x.lower()]. *)
Definition breadcrumb_class (x : str) : bool :=
  truthy x && contains (lower x) (lit "breadcrumb").

(** [extract_breadcrumb] of both scraper sources. *)
Definition extract_breadcrumb (soup : node) : str :=
  let breadcrumb_elem :=
    find_where (root soup) (lit "div") (class_matches breadcrumb_class) in
  let breadcrumb_elem :=
    if tag_truthy breadcrumb_elem then breadcrumb_elem
    else find_where (root soup) (lit "nav") (class_matches breadcrumb_class) in
  match breadcrumb_elem with
  | Some e =>
      match find_all e (lit "a") with
      | [] => []
      | links =>
          join (lit " > ")
            (List.map (fun link => clean_text (get_text (self link))) links)
      end
  | None => []
  end.

(** [lambda x: x and any(nav in str(x).lower() for nav in [...])]. *)
Definition navigation_class (x : str) : bool :=
  truthy x &&
  existsb (fun nav => contains (lower x) nav)
    [lit "nav"; lit "menu"; lit "sidebar"; lit "header"; lit "footer"].

(** [ul.find_parent(class_=...)] is not [None]: some ancestor has a class
    the filter accepts. *)
Definition inside_navigation (ul : elem) : bool :=
  existsb (fun a => class_matches navigation_class (Elem [] a)) (ancestors ul).

(** [ul.find_all('li', recursive=False)]: the children named [li]. *)
Definition direct_items (ul : elem) : list elem :=
  match self ul with
  | NTag _ _ _ cs =>
      List.filter (has_name (lit "li"))
        (List.map (Elem (self ul :: ancestors ul)) cs)
  | _ => []
  end.

Definition HASHMARK : str := lit "#".

(** The body of the inner loop for one list item. *)
Definition subsection_link_of (li : elem) : list (str * str) :=
  match find_where li (lit "a") has_href with
  | Some link =>
      let text := clean_text (get_text (self link)) in
      let url := get_or_empty (self link) (lit "href") in
      if truthy text && (2 <? length text)%nat
         && negb (startswith text HASHMARK)
      then [(text, url)]
      else []
  | None => []
  end.

(** [extract_subsection_links] of both scraper sources; a link is the
    pair of its text and its url. *)
Definition extract_subsection_links (soup : node) : subsection_group :=
  let content_div :=
    match first_selected (root soup) CONTENT_SELECTORS with
    | Some e => e
    | None => body_or_root (root soup)
    end in
  let subsection_links :=
    flat_map
      (fun ul =>
         if inside_navigation ul then []
         else flat_map subsection_link_of (direct_items ul))
      (find_all content_div (lit "ul")) in
  SubsectionGroup (0 <? length subsection_links)%nat
    (Z.of_nat (length subsection_links)) subsection_links.

(** ** Assembling the record *)

(** What [scrape_page] returns for a fetched page: the dictionary with its
    [page_type_classification] key. *)
Record scraped := Scraped {
  sc_data : page_data;
  page_type_classification : str
}.

(** [scrape_page] once the page is fetched and parsed into [soup];
    [combined] tells the combined script from the stand-alone scraper.  An
    exception of an extractor is caught and gives [None]. *)
Definition scrape_document (combined : bool) (url : str) (soup : node)
  : option scraped :=
  match extract_body_content_of combined soup with
  | Ok body_content =>
      let data :=
        PageData url (extract_title soup) (extract_breadcrumb soup)
          (tag_truthy (find (root soup) (lit "h1")))
          body_content
          (extract_subsection_links soup)
          (extract_faculty_links soup)
          (extract_appointment_section soup)
          (extract_external_links soup) in
      Some (Scraped data (classify_page_type data))
  | AttributeError => None
  end.

End MoreExtractors.

(** ** From the scraper to the publisher *)

(** The record [run_upload] reads back from the file [main] wrote for a
    scraped page: [json.dump] followed by [json.loads] returns the same
    strings, and the scraper writes no [hero_image] key. *)
Definition persist (r : scraped) : Publish.persisted :=
  Publish.Persisted (Some (pd_page_title (sc_data r)))
    (Some (main_paragraphs (pd_body_content (sc_data r)))) None.

(** ** The remote client *)

Module Remote.

(** A [requests.Response], as far as the sources read it. *)
Record response := Response { status_code : Z; text : str }.

(** [bool(resp)]: a response is truthy when it is [ok], that is when its
    status is not a client or server error (400 to 599). *)
Definition response_truthy (r : response) : bool :=
  negb ((400 <=? status_code r) && (status_code r <? 600))%Z.

(** The exceptions the sources tell apart: [HTTPError] with its [response]
    attribute, and every other exception. *)
Inductive exn :=
| HTTPError (response : option response)
| OtherException.

Section Client.

Context `{db : UnicodeDB}.

(** A parsed JSON value. *)
Variable J : Type.

(** What one HTTP request does: the transport raises, or a response
    arrives, whose body parses as JSON or not. *)
Inductive answer :=
| Raises (e : exn)
| Responds (r : response) (body : option J).

(** The remote service: its answer to a request, given the requests made
    so far.  A request is named by the slug it asks for. *)
Variable world : list str -> str -> answer.

(** What a call gives back. *)
Inductive outcome :=
| Returns (j : option J)
| Raised (e : exn).

(** The [try] block of [_req]. *)
Definition attempt (a : answer) : J + exn :=
  match a with
  | Raises e => inr e
  | Responds r body =>
      if (400 <=? status_code r)%Z then inr (HTTPError (Some r))
      else
        match body with
        | Some j => inl j
        | None => inr OtherException
        end
  end.

(** The loop of [_req] with [left] attempts to go; [trace] is the list of
    requests made so far.  A loop that never runs falls through to the
    implicit [return None]. *)
Fixpoint req_loop (request : str) (left : nat) (trace : list str)
  : outcome * list str :=
  match left with
  | O => (Returns None, trace)
  | S left' =>
      match attempt (world trace request) with
      | inl j => (Returns (Some j), trace ++ [request])
      | inr e =>
          match left' with
          | O => (Raised e, trace ++ [request])
          | S _ => req_loop request left' (trace ++ [request])
          end
      end
  end.

(** [_req] of [StoryblokClient]. *)
Definition req (request : str) (retries : Z) (trace : list str)
  : outcome * list str :=
  req_loop request (Z.to_nat retries) trace.

(** [create_story]: one [_req] with the default four attempts. *)
Definition create_story (slug : str) (trace : list str)
  : outcome * list str :=
  req slug 4 trace.

(** [story = result.get("story") or result] and the log line that reads
    [story.get(...)]: [None] when they raise. *)
Variable story_of : J -> option J.

(** The test in front of [continue] in [create_storyblok_story]. *)
Definition slug_conflict (resp : option response) : bool :=
  match resp with
  | Some resp =>
      response_truthy resp && (status_code resp =? 422)%Z
      && (contains (lower (text resp)) (lit "already taken")
          || contains (lower (text resp)) (lit "slug"))
  | None => false
  end.

(** The loop over the candidate slugs. *)
Fixpoint try_slugs (slugs : list str) (trace : list str)
  : option J * list str :=
  match slugs with
  | [] => (None, trace)
  | slug :: rest =>
      match create_story slug trace with
      | (Returns (Some result), trace') => (story_of result, trace')
      | (Returns None, trace') => (None, trace')
      | (Raised (HTTPError resp), trace') =>
          if slug_conflict resp then try_slugs rest trace'
          else (None, trace')
      | (Raised OtherException, trace') => (None, trace')
      end
  end.

(** [create_storyblok_story] of the uploader and of the combined script,
    which differ in the content they send, not in the loop.  [now] and
    [later] are the two readings of the clock, [random] the number drawn
    for the second candidate. *)
Definition create_storyblok_story (title : str) (now random later : Z)
  (trace : list str) : option J * list str :=
  let base_slug := slugify (Some title) 90 now in
  try_slugs
    [base_slug;
     base_slug ++ lit "-" ++ str_of_Z random;
     base_slug ++ lit "-" ++ str_of_Z later]
    trace.

End Client.

End Remote.

(** ** The environment file *)

Definition EQUALS : char := 61.

(** [s.partition(c)]: what stands before and after the first [c]. *)
Fixpoint partition_at (c : char) (s : str) : str * str :=
  match s with
  | [] => ([], [])
  | x :: t =>
      if x =? c then ([], t)
      else let '(a, b) := partition_at c t in (x :: a, b)
  end.

(** The assignment a line of the file makes, if any. *)
Definition env_assignment (line : str) : option (str * str) :=
  let line := strip is_space line in
  if negb (truthy line) || startswith line (lit "#")
     || negb (contains line [EQUALS])
  then None
  else
    let '(key, value) := partition_at EQUALS line in
    let key := strip is_space key in
    let value :=
      strip (N.eqb PyRepr.QUOTE)
        (strip (N.eqb PyRepr.DQUOTE) (strip is_space value)) in
    if truthy key && truthy value then Some (key, value) else None.

Section EnvFile.

(** Whether the operating system refuses a new variable; the exception is
    swallowed by the [except] around the loop, which ends it. *)
Variable putenv_fails : str -> str -> bool.

(** The loop of [_load_env_file] over the lines of the file. *)
Fixpoint load_env_lines (lines : list str) (environ : gmap str str)
  : gmap str str :=
  match lines with
  | [] => environ
  | line :: rest =>
      match env_assignment line with
      | None => load_env_lines rest environ
      | Some (key, value) =>
          match environ !! key with
          | Some _ => load_env_lines rest environ
          | None =>
              if putenv_fails key value then environ
              else load_env_lines rest (<[key := value]> environ)
          end
      end
  end.

(** [_load_env_file]; [file] is [None] when the path does not exist. *)
Definition load_env_file (file : option (list str)) (environ : gmap str str)
  : gmap str str :=
  match file with
  | None => environ
  | Some lines => load_env_lines lines environ
  end.

End EnvFile.

(** ** The scraping run *)

Module Run.

(** The names [main] writes under the output folder. *)
Definition json_file_name (page_counter : Z) (title : str) : str :=
  str_of_Z page_counter ++ lit "_" ++ sanitize_filename title ++ lit ".json".

Definition METADATA : str := lit "metadata.json".
Definition SUMMARY : str := lit "summary.csv".

Record run_state := RunState {
  results : list scraped;
  failed_urls : list str;
  page_counter : Z;
  files : gmap str scraped
}.

(** The state in front of the loop; the output folder, named after the
    time of the run, is new and empty. *)
Definition start : run_state := RunState [] [] 1 ∅.

Section Loop.

Context `{db : UnicodeDB}.

(** The page behind a URL, parsed; [None] when the fetch fails. *)
Variable fetch : str -> option node.
Variable combined : bool.

(** [scrape_page]. *)
Definition scrape_page (url : str) : option scraped :=
  match fetch url with
  | Some soup => scrape_document combined url soup
  | None => None
  end.

(** One iteration of the loop of [main] over the URLs. *)
Definition main_step (st : run_state) (url : str) : run_state :=
  match scrape_page url with
  | Some page_data =>
      let name :=
        json_file_name (page_counter st)
          (pd_page_title (sc_data page_data)) in
      RunState (results st ++ [page_data]) (failed_urls st)
        (page_counter st + 1) (<[name := page_data]> (files st))
  | None =>
      RunState (results st) (failed_urls st ++ [url]) (page_counter st)
        (files st)
  end.

Definition main_loop (urls : list str) : run_state :=
  fold_left main_step urls start.

End Loop.

(** The loop that counts the pages of each type. *)
Definition count_step (type_counts : gmap str Z) (page : scraped)
  : gmap str Z :=
  let ptype := page_type_classification page in
  <[ptype := (default 0 (type_counts !! ptype) + 1)%Z]> type_counts.

Definition count_types (results : list scraped) : gmap str Z :=
  fold_left count_step results ∅.

(** [json_paths] of the upload that follows: the names ending in
    [.json], [metadata.json] apart. *)
Definition is_upload_input (name : str) : bool :=
  endswith name (lit ".json") && negb (eqb_str name METADATA).

End Run.

(** * Vocabulary of the properties *)

(** ** Normal forms of the text normalizer *)

(** A string is [tidy] when every whitespace character in it is a plain
    space that is followed by a character that is not whitespace or by the end of the string. *)
Fixpoint tidy (s : str) : Prop :=
  match s with
  | [] => True
  | c :: t =>
      (is_space c = true ->
       c = SP /\ match t with [] => True | d :: _ => is_space d = false end)
      /\ tidy t
  end.

(** The three facts that describe an output of [clean_text]. *)
Definition normalized (s : str) : Prop :=
  Forall (fun x => x <> ZWSP /\ x <> NBSP) s
  /\ tidy s
  /\ strip is_space s = s.

(** ** Classifier *)

(** The six fields the classifier reads. *)
Definition classifier_view (d : page_data)
  : bool * bool * bool * Z * bool * bool :=
  (pd_has_h1_title d, sg_present (pd_subsection_links d),
   has_collapsible_sections (pd_body_content d),
   fg_count (pd_faculty_links d),
   ap_present (pd_appointment_section d),
   has_subheadings (pd_body_content d)).

(** ** Title *)

(** A character that [clean_text] drops when nothing else surrounds it. *)
Definition blank (c : char) : bool := is_space c || (c =? ZWSP).

(** The heading the title is read from: the first [h1], else the first
    [h2]. *)
Definition title_heading (soup : node) : option elem :=
  match find (root soup) (lit "h1") with
  | Some h1 => Some h1
  | None => find (root soup) (lit "h2")
  end.

(** ** Faculty links *)

Definition link_key (l : faculty_link) : str * str := (fl_url l, fl_text l).

(** What the remove-duplicates loop keeps true: [seen] holds exactly the
    keys of the links kept so far, and no key is kept twice. *)
Definition dedup_inv (st : gset (str * str) * list faculty_link) : Prop :=
  (forall k, k ∈ st.1 <-> k ∈ List.map link_key st.2)
  /\ NoDup (List.map link_key st.2).

(** A link as both collection patterns build it. *)
Definition doctor_search_link (l : faculty_link) : Prop :=
  contains (fl_url l) FINDADOCTOR = true
  /\ fl_specialty l = extract_specialty_from_url (fl_url l)
  /\ clean_text (fl_text l) = fl_text l.

(** ** External links *)

(** The test that starts with [href.startswith('http')]. *)
Definition looks_external (href : str) : bool :=
  startswith href (lit "http") && negb (contains href (lit "aku.edu")).

Definition is_document (href : str) : bool :=
  existsb (endswith href) DOCUMENT_EXTENSIONS.

(** ** Publishing *)

(** What may be asked of a call of the trace: a story has a title, which
    is stripped, and, when [need_body] is set, a body. *)
Definition story_call_ok (need_body : bool) (c : Publish.call) : Prop :=
  match c with
  | Publish.CreateStory title description _ =>
      title <> [] /\ strip is_space title = title
      /\ (need_body = true -> description <> [])
  | Publish.UploadImage _ => True
  end.

Definition is_create_story (c : Publish.call) : bool :=
  match c with Publish.CreateStory _ _ _ => true | _ => false end.

(** ** The scraping run *)

(** What the loop of [main] keeps true of its state: the counter is one
    more than the number of pages written, every page sits in the file
    named after its number and title, and the folder holds nothing else. *)
Definition run_inv (st : Run.run_state) : Prop :=
  Run.page_counter st = (1 + Z.of_nat (length (Run.results st)))%Z
  /\ size (Run.files st) = length (Run.results st)
  /\ (forall (i : nat) page,
        Run.results st !! i = Some page ->
        Run.files st
          !! Run.json_file_name (Z.of_nat i + 1)
               (pd_page_title (sc_data page))
        = Some page)
  /\ (forall name,
        is_Some (Run.files st !! name) ->
        exists (i : nat) page,
          Run.results st !! i = Some page
          /\ name = Run.json_file_name (Z.of_nat i + 1)
                      (pd_page_title (sc_data page))).

(** The number of pages of a type. *)
Definition pages_of_type (t : str) (results : list scraped) : nat :=
  length (List.filter (fun page => eqb_str (page_type_classification page) t)
            results).

Section Vocabulary.

Context `{db : UnicodeDB}.

(** ** Appointment block *)

(** [w] is the leftmost block of [text] of the phone shape. *)
Definition leftmost_phone (text w : str) : Prop :=
  exists pre post,
    text = pre ++ w ++ post
    /\ phone_shape w = true
    /\ forall pre' w' post',
         text = pre' ++ w' ++ post' -> phone_shape w' = true ->
         (length pre <= length pre')%nat.


(** ** External links *)

(** The links the loop keeps. *)
Definition kept (link : elem) : bool :=
  truthy (clean_text (get_text (self link)))
  && truthy (get_or_empty (self link) (lit "href"))
  && negb (contains (get_or_empty (self link) (lit "href")) FINDADOCTOR)
  && negb (parent_is_breadcrumb link).

Definition entry_of (link : elem) : external_link :=
  let href := get_or_empty (self link) (lit "href") in
  ExternalLink (clean_text (get_text (self link))) href (link_type href).

(** ** Slugs *)

(** The string the slug is cut from: never empty, never starting with a
    hyphen. *)
Definition slug_base (s : option str) (now : Z) : str :=
  let s := lower (strip is_space (or_empty s)) in
  let s := List.filter (fun c => is_word c || is_space c || is_hyphen c) s in
  let s :=
    strip is_hyphen
      (sub_runs (fun c => is_space c || (c =? UNDERSCORE) || is_hyphen c)
         HYPHEN s) in
  if truthy s then s else lit "service-" ++ str_of_Z now.

End Vocabulary.

(** * Sample documents and records *)

(** A page of the usual shape with an appointment paragraph. *)
Module AppointmentExample.

Definition para (contents : list node) : node :=
  NTag (lit "p") None [] contents.

Definition booking : node :=
  para [NTag (lit "strong") None [] [NText (lit "Request an Appointment:")];
        NText (lit " ");
        NTag (lit "a") None [(lit "href", lit "/appointments")]
          [NText (lit "Click here")];
        NText (lit " or call (021)111911911 or use Family Hifazat.")].

Definition later : node :=
  para [NText (lit "To request an appointment abroad call (022)222922922.")].

Definition page : node :=
  BeautifulSoup
    [NTag (lit "h1") None [] [NText (lit "Cardiology")];
     para [NText (lit "The heart centre offers a full range of care.")];
     booking;
     later].

End AppointmentExample.

Module LinksExample.

Definition anchor (href text : string) : node :=
  NTag (lit "a") None [(lit "href", lit href)] [NText (lit text)].

(** A page with one link of each kind, a doctor-search link and a
    breadcrumb trail. *)
Definition page : node :=
  BeautifulSoup
    [NTag (lit "ul") (Some [lit "breadcrumb"]) []
       [anchor "/home" "Home"];
     NTag (lit "div") (Some [lit "ContentMain"]) []
       [anchor "https://www.who.int/" "World Health Organization";
        anchor "/docs/visitor-guide.pdf" "Visitor guide";
        anchor "/pakistan/services" "All services";
        anchor "/pakistan/findadoctor.aspx?Spec=Cardiology" "Meet our team"]].

Definition content : node :=
  NTag (lit "div") (Some [lit "ContentMain"]) []
    [anchor "https://www.who.int/" "World Health Organization";
     anchor "/docs/visitor-guide.pdf" "Visitor guide";
     anchor "/pakistan/services" "All services";
     anchor "/pakistan/findadoctor.aspx?Spec=Cardiology" "Meet our team"].

(** A link to another site whose path happens to contain "aku.edu". *)
Definition partner_href : str :=
  lit "https://www.who.int/partners/aku.edu-network".

Definition partner_page : node :=
  BeautifulSoup
    [NTag (lit "div") None []
       [NTag (lit "a") None [(lit "href", partner_href)]
          [NText (lit "WHO partners")]]].

End LinksExample.

Module BodyExample.

(** A page whose only class-hinted container holds a level-3 heading; the
    running text sits beside it, directly in the body. *)
Definition container : node :=
  NTag (lit "div") (Some [lit "page-content"]) []
    [NTag (lit "h3") None [] [NText (lit "Overview")]].

Definition body : node :=
  NTag (lit "body") None []
    [container;
     NTag (lit "p") None []
       [NText (lit "The cardiology service cares for adults and children.")]].

Definition page : node := BeautifulSoup [body].

End BodyExample.

Module PublishExample.

Import Publish.

(** A remote service that accepts every story; no image on disk. *)
Definition accept_all : list call -> str -> str -> option asset -> bool :=
  fun _ _ _ _ => true.

Definition no_image : list call -> str -> option asset := fun _ _ => None.

(** A persisted record with a title and an empty body, then a complete
    one. *)
Definition empty_body : persisted :=
  Persisted (Some (lit "Cardiology")) (Some []) None.

Definition complete : persisted :=
  Persisted (Some (lit "Oncology")) (Some (lit "Cancer care for all ages."))
    None.

End PublishExample.

(** * Properties *)

Example clean_text_ex1 :
  clean_text (lit "  Heart " ++ [NBSP; ZWSP; 10] ++ lit "Care  ")
  = lit "Heart Care".
Proof. reflexivity. Qed.

Example extract_title_ex1 :
  extract_title (BeautifulSoup
    [NTag (lit "div") None []
       [NTag (lit "h2") None [] [NText (lit "Sub")];
        NTag (lit "h1") None [] [NText (lit " Cardiology ")]]])
  = lit "Cardiology".
Proof. reflexivity. Qed.

(** ** Text normalizer: normal forms and idempotence *)

Section CleanText.

(** The unfolding equations of [sub_ws], one for each case of a run. *)
Lemma sub_ws_cons_space c d u :
  is_space c = true -> is_space d = true ->
  sub_ws (c :: d :: u) = sub_ws (d :: u).
Proof. intros Hc Hd. unfold sub_ws. cbn [sub_runs]. rewrite Hc, Hd. reflexivity. Qed.

Lemma sub_ws_cons_last c d u :
  is_space c = true -> is_space d = false ->
  sub_ws (c :: d :: u) = SP :: sub_ws (d :: u).
Proof. intros Hc Hd. unfold sub_ws. cbn [sub_runs]. rewrite Hc, Hd. reflexivity. Qed.

Lemma sub_ws_cons_other c t :
  is_space c = false -> sub_ws (c :: t) = c :: sub_ws t.
Proof. intros Hc. unfold sub_ws. cbn [sub_runs]. rewrite Hc. reflexivity. Qed.

Lemma sub_ws_single c : is_space c = true -> sub_ws [c] = [SP].
Proof. intros Hc. unfold sub_ws. cbn [sub_runs]. rewrite Hc. reflexivity. Qed.

(** The head of [sub_ws s] is whitespace exactly when the head of [s] is. *)
Lemma sub_ws_head c t :
  exists d u, sub_ws (c :: t) = d :: u /\ is_space d = is_space c.
Proof.
  revert c. induction t as [|d u IH]; intros c.
  - destruct (is_space c) eqn:Hc.
    + rewrite (sub_ws_single c Hc). exists SP, []. auto.
    + rewrite (sub_ws_cons_other c [] Hc). exists c, []. auto.
  - destruct (is_space c) eqn:Hc.
    + destruct (is_space d) eqn:Hd.
      * rewrite (sub_ws_cons_space c d u Hc Hd).
        destruct (IH d) as (d' & u' & -> & E). exists d', u'.
        split; congruence.
      * rewrite (sub_ws_cons_last c d u Hc Hd). exists SP, (sub_ws (d :: u)).
        auto.
    + rewrite (sub_ws_cons_other c (d :: u) Hc). exists c, (sub_ws (d :: u)).
      auto.
Qed.

Lemma sub_ws_tidy s : tidy (sub_ws s).
Proof.
  induction s as [|c t IH]; [exact I|].
  destruct (is_space c) eqn:Hc.
  - destruct t as [|d u].
    + rewrite (sub_ws_single c Hc). simpl. tauto.
    + destruct (is_space d) eqn:Hd.
      * rewrite (sub_ws_cons_space c d u Hc Hd). exact IH.
      * rewrite (sub_ws_cons_last c d u Hc Hd).
        destruct (sub_ws_head d u) as (d' & u' & E & Hd').
        rewrite E in IH |- *. split; [|exact IH].
        intros _. split; [reflexivity|congruence].
  - rewrite (sub_ws_cons_other c t Hc). split; [|exact IH].
    intros H. congruence.
Qed.

Lemma sub_ws_tidy_id s : tidy s -> sub_ws s = s.
Proof.
  induction s as [|c t IH]; [reflexivity|].
  intros [Hc Ht]. specialize (IH Ht).
  destruct (is_space c) eqn:Ec.
  - destruct (Hc eq_refl) as [-> Hn].
    destruct t as [|d u]; [reflexivity|].
    rewrite (sub_ws_cons_last SP d u Ec Hn). now rewrite IH.
  - rewrite (sub_ws_cons_other c t Ec). now rewrite IH.
Qed.

Lemma tidy_lstrip s : tidy s -> tidy (lstrip is_space s).
Proof.
  induction s as [|c t IH]; simpl; [trivial|].
  intros [Hc Ht]. destruct (is_space c) eqn:E; [exact (IH Ht)|].
  split; [intros H; congruence | exact Ht].
Qed.

Lemma tidy_rstrip s : tidy s -> tidy (rstrip is_space s).
Proof.
  induction s as [|c t IH]; simpl; [trivial|].
  intros [Hc Ht]. specialize (IH Ht).
  destruct (rstrip is_space t) as [|d u] eqn:Er.
  - destruct (is_space c) eqn:Ec; simpl; [exact I|].
    split; [congruence|exact I].
  - split; [|exact IH].
    intros H. destruct (Hc H) as [-> Hn]. split; [reflexivity|].
    destruct t as [|d' u']; [discriminate|].
    simpl in Er. destruct (rstrip is_space u'); [destruct (is_space d') eqn:E'|];
      congruence.
Qed.

(** What is left after stripping neither starts nor ends with a stripped
    character, and stripping it again changes nothing. *)
Lemma lstrip_lstrip p s : lstrip p (lstrip p s) = lstrip p s.
Proof.
  induction s as [|c t IH]; simpl; [reflexivity|].
  destruct (p c) eqn:E; [exact IH|]. simpl. now rewrite E.
Qed.

Lemma rstrip_rstrip p s : rstrip p (rstrip p s) = rstrip p s.
Proof.
  induction s as [|c t IH]; simpl; [reflexivity|].
  destruct (rstrip p t) as [|d u] eqn:Er.
  - destruct (p c) eqn:E; simpl; [reflexivity|]. now rewrite E.
  - change (rstrip p (c :: d :: u)) with
      (match rstrip p (d :: u) with
       | [] => if p c then [] else [c]
       | t' => c :: t'
       end).
    rewrite IH. reflexivity.
Qed.

Lemma lstrip_id p s :
  match s with [] => True | c :: _ => p c = false end -> lstrip p s = s.
Proof. destruct s as [|c t]; simpl; [trivial|]. now intros ->. Qed.

Lemma rstrip_head p s :
  match s with [] => True | c :: _ => p c = false end ->
  match rstrip p s with [] => True | c :: _ => p c = false end.
Proof.
  destruct s as [|c t]; simpl; [trivial|]. intros Hc.
  destruct (rstrip p t); [rewrite Hc|]; exact Hc.
Qed.

Lemma lstrip_head p s :
  match lstrip p s with [] => True | c :: _ => p c = false end.
Proof.
  induction s as [|c t IH]; simpl; [exact I|].
  destruct (p c) eqn:E; [exact IH|exact E].
Qed.

Lemma strip_strip p s : strip p (strip p s) = strip p s.
Proof.
  unfold strip.
  rewrite (lstrip_id p (rstrip p (lstrip p s))).
  - apply rstrip_rstrip.
  - apply rstrip_head, lstrip_head.
Qed.

(** Characters that occur in the output of each stage. *)
Lemma Forall_lstrip (P : char -> Prop) p s :
  Forall P s -> Forall P (lstrip p s).
Proof.
  induction 1 as [|c t Hc Ht IH]; simpl; [constructor|].
  destruct (p c); [exact IH|]. constructor; assumption.
Qed.

Lemma Forall_rstrip (P : char -> Prop) p s :
  Forall P s -> Forall P (rstrip p s).
Proof.
  induction 1 as [|c t Hc Ht IH]; simpl; [constructor|].
  destruct (rstrip p t).
  - destruct (p c); constructor; [assumption|constructor].
  - constructor; assumption.
Qed.

Lemma Forall_sub_runs (P : char -> Prop) p r s :
  P r -> Forall P s -> Forall P (sub_runs p r s).
Proof.
  intros Hr. induction 1 as [|c t Hc Ht IH]; simpl; [constructor|].
  destruct (p c).
  - destruct t as [|d u]; [repeat constructor; exact Hr|].
    destruct (p d); [exact IH|]. constructor; assumption.
  - constructor; assumption.
Qed.

Lemma Forall_sub_ws (P : char -> Prop) s :
  P SP -> Forall P s -> Forall P (sub_ws s).
Proof. apply Forall_sub_runs. Qed.

Lemma remove_char_absent c s : Forall (fun x => x <> c) (remove_char c s).
Proof.
  induction s as [|x t IH]; simpl; [constructor|].
  destruct (N.eqb_spec x c); [exact IH|]. constructor; assumption.
Qed.

Lemma remove_char_id c s : Forall (fun x => x <> c) s -> remove_char c s = s.
Proof.
  induction 1 as [|x t Hx Ht IH]; simpl; [reflexivity|].
  destruct (N.eqb_spec x c); [contradiction|]. now rewrite IH.
Qed.

Lemma replace_char_absent a b s :
  a <> b -> Forall (fun x => x <> a) (replace_char a b s).
Proof.
  intros Hab. induction s as [|x t IH]; simpl; [constructor|].
  constructor; [|exact IH].
  destruct (N.eqb_spec x a); [congruence|assumption].
Qed.

Lemma replace_char_id a b s :
  Forall (fun x => x <> a) s -> replace_char a b s = s.
Proof.
  induction 1 as [|x t Hx Ht IH]; simpl; [reflexivity|].
  destruct (N.eqb_spec x a); [contradiction|]. now rewrite IH.
Qed.

Lemma replace_char_keeps (P : char -> Prop) a b s :
  P b -> Forall P s -> Forall P (replace_char a b s).
Proof.
  intros Hb. induction 1 as [|x t Hx Ht IH]; simpl; [constructor|].
  constructor; [|exact IH]. destruct (x =? a); assumption.
Qed.

Lemma clean_text_normalized s : normalized (clean_text s).
Proof.
  unfold clean_text, normalized, strip. repeat split.
  - apply Forall_rstrip, Forall_lstrip, Forall_sub_ws.
    + split; discriminate.
    + pose proof (remove_char_absent ZWSP s) as H1.
      pose proof (replace_char_absent NBSP SP (remove_char ZWSP s)) as H2.
      assert (NBSP <> SP) as Hne by discriminate. specialize (H2 Hne).
      pose proof (replace_char_keeps (fun x => x <> ZWSP) NBSP SP
                    (remove_char ZWSP s)) as H3.
      assert (SP <> ZWSP) as Hne' by discriminate.
      specialize (H3 Hne' H1).
      rewrite Forall_forall in *. intros x Hx. split; auto.
  - apply tidy_rstrip, tidy_lstrip, sub_ws_tidy.
  - apply (strip_strip is_space).
Qed.

Lemma clean_text_fixes_normalized s : normalized s -> clean_text s = s.
Proof.
  intros (Hch & Ht & Hs). unfold clean_text.
  rewrite remove_char_id.
  - rewrite replace_char_id.
    + rewrite (sub_ws_tidy_id s Ht). exact Hs.
    + revert Hch. apply List.Forall_impl. tauto.
  - revert Hch. apply List.Forall_impl. tauto.
Qed.

End CleanText.

(** C6: the text normalizer is idempotent; its output has no zero-width
    space and no non-breaking space, its only whitespace is single plain
    spaces between other characters, and it has none at either end. *)
Theorem clean_text_idempotent (s : str) :
  clean_text (clean_text s) = clean_text s
  /\ normalized (clean_text s).
Proof.
  split; [|apply clean_text_normalized].
  apply clean_text_fixes_normalized, clean_text_normalized.
Qed.

(** ** Page classifier *)

Section Classifier.

(** C1: [classify_page_type] is the ordered, first-match decision list of
    the specification; a record with subsection links is a
    [parent_overview] whatever its other fields, and a record without
    subsection links and without a primary heading that has ten faculty
    links is a [service_complex], not a [multi_specialty]. *)
Theorem classify_page_type_decision_list (d : page_data) :
  classify_page_type d = first_match decision_list (lit "standard") d
  /\ (sg_present (pd_subsection_links d) = true ->
      classify_page_type d = lit "parent_overview")
  /\ (sg_present (pd_subsection_links d) = false ->
      pd_has_h1_title d = false ->
      fg_count (pd_faculty_links d) = 10%Z ->
      classify_page_type d = lit "service_complex"
      /\ classify_page_type d <> lit "multi_specialty").
Proof.
  unfold classify_page_type. cbn [first_match decision_list].
  rewrite Z.gtb_ltb.
  split; [reflexivity|]. split.
  - intros ->. reflexivity.
  - intros Hsub Hh1 Hcount. rewrite Hsub, Hh1. cbn [negb].
    split; [reflexivity | discriminate].
Qed.

Lemma classify_page_type_decision_list_witness :
  let d := PageData (lit "https://hospitals.aku.edu/x") (lit "Untitled") []
             false
             (BodyContent [] None 0 false [] false false)
             (SubsectionGroup false 0 [])
             (FacultyGroup 10 (lit "multiple") [])
             appointment_default [] in
  classify_page_type d = lit "service_complex"
  /\ classify_page_type d <> lit "multi_specialty".
Proof.
  intros d.
  exact (proj2 (proj2 (classify_page_type_decision_list d))
           eq_refl eq_refl eq_refl).
Defined.

(** C2: two records that agree on the six fields the classifier reads get
    the same page type, and the page type is one of the six literals. *)
Theorem classify_page_type_depends_on_view (d1 d2 : page_data) :
  classifier_view d1 = classifier_view d2 ->
  classify_page_type d1 = classify_page_type d2
  /\ In (classify_page_type d1) PAGE_TYPES.
Proof.
  unfold classifier_view. intros H. injection H as H1 H2 H3 H4 H5 H6.
  split.
  - unfold classify_page_type.
    rewrite H1, H2, H3, H4, H5, H6. reflexivity.
  - unfold classify_page_type, PAGE_TYPES.
    repeat match goal with
           | |- context [if ?b then _ else _] => destruct b
           end; simpl; tauto.
Qed.

Lemma classify_page_type_depends_on_view_witness :
  let d1 := PageData (lit "https://hospitals.aku.edu/a") (lit "Cardiology")
              (lit "Home > Services") true
              (BodyContent (lit "Heart care for everyone") None 4 true
                 [lit "h2"] true false)
              (SubsectionGroup false 0 [])
              (FacultyGroup 0 (lit "none") [])
              appointment_default [] in
  let d2 := PageData (lit "https://hospitals.aku.edu/b") (lit "Oncology")
              [] true
              (BodyContent [] (Some false) 0 true [lit "h3"; lit "h4"] false
                 false)
              (SubsectionGroup false 7 [(lit "x", lit "y")])
              (FacultyGroup 0 (lit "multiple") [])
              appointment_default
              [ExternalLink (lit "a") (lit "b") (lit "internal")] in
  classify_page_type d1 = classify_page_type d2
  /\ In (classify_page_type d1) PAGE_TYPES.
Proof.
  intros d1 d2.
  exact (classify_page_type_depends_on_view d1 d2 eq_refl).
Defined.

End Classifier.

(** ** Title *)

Section Title.

Lemma lstrip_nil p s : lstrip p s = [] <-> forallb p s = true.
Proof.
  induction s as [|c t IH]; simpl; [tauto|].
  destruct (p c); simpl; [exact IH|]. split; discriminate.
Qed.

Lemma rstrip_nil p s : rstrip p s = [] <-> forallb p s = true.
Proof.
  induction s as [|c t IH]; simpl; [tauto|].
  destruct (rstrip p t) as [|d u] eqn:E.
  - destruct (p c); simpl.
    + split; [intros _; apply IH; reflexivity | reflexivity].
    + split; discriminate.
  - split; [discriminate|].
    intros H. apply andb_prop in H as [_ H]. apply IH in H. discriminate.
Qed.

Lemma strip_nil p s : strip p s = [] <-> forallb p s = true.
Proof.
  unfold strip. split.
  - intros H. apply lstrip_nil.
    pose proof (lstrip_head p s) as Hh.
    destruct (lstrip p s) as [|c t] eqn:E; [reflexivity|].
    apply rstrip_nil in H. simpl in H. rewrite Hh in H. discriminate.
  - intros H. apply lstrip_nil in H. rewrite H. reflexivity.
Qed.

Lemma forallb_sub_runs p r s :
  p r = true -> forallb p (sub_runs p r s) = forallb p s.
Proof.
  intros Hr. induction s as [|c t IH]; [reflexivity|].
  cbn [sub_runs forallb]. destruct (p c) eqn:Hc; cbn [andb].
  - destruct t as [|d u]; [simpl; now rewrite Hr|].
    destruct (p d) eqn:Hd; [exact IH|].
    cbn [forallb]. rewrite Hr. exact IH.
  - cbn [forallb]. now rewrite Hc.
Qed.

Lemma forallb_replace_nbsp s :
  forallb is_space (replace_char NBSP SP s) = forallb is_space s.
Proof.
  induction s as [|c t IH]; [reflexivity|]. cbn [replace_char forallb].
  rewrite IH. destruct (N.eqb_spec c NBSP) as [->|]; reflexivity.
Qed.

Lemma forallb_remove_zwsp s :
  forallb is_space (remove_char ZWSP s) = forallb blank s.
Proof.
  induction s as [|c t IH]; [reflexivity|]. cbn [remove_char forallb].
  unfold blank at 1. destruct (N.eqb_spec c ZWSP) as [->|].
  - rewrite IH. reflexivity.
  - cbn [forallb]. rewrite IH, orb_false_r. reflexivity.
Qed.

(** [clean_text] gives the empty string exactly on blank input. *)
Lemma clean_text_nil s : clean_text s = [] <-> forallb blank s = true.
Proof.
  unfold clean_text. rewrite strip_nil. unfold sub_ws.
  rewrite forallb_sub_runs by reflexivity.
  rewrite forallb_replace_nbsp, forallb_remove_zwsp. tauto.
Qed.

(** C3, as the code has it: the title is the cleaned text of the first
    level-1 heading, else of the first level-2 heading, else "Untitled";
    it is empty exactly when that heading exists and its text is blank
    (only whitespace and zero-width spaces, or nothing at all). *)
Theorem extract_title_spec (soup : node) :
  extract_title soup =
    match title_heading soup with
    | Some h => clean_text (get_text (self h))
    | None => lit "Untitled"
    end
  /\ (extract_title soup = [] <->
      exists h, title_heading soup = Some h
                /\ forallb blank (get_text (self h)) = true).
Proof.
  unfold extract_title, title_heading.
  destruct (find (root soup) (lit "h1")) as [h1|].
  - split; [reflexivity|]. rewrite clean_text_nil. split.
    + intros H. exists h1. auto.
    + intros (h & [= <-] & H). exact H.
  - destruct (find (root soup) (lit "h2")) as [h2|].
    + split; [reflexivity|]. rewrite clean_text_nil. split.
      * intros H. exists h2. auto.
      * intros (h & [= <-] & H). exact H.
    + split; [reflexivity|]. split; [discriminate|].
      intros (h & [=] & _).
Qed.

(** C3, as stated, fails: a level-1 heading without text, or with only
    whitespace in it, is still the heading the title is read from. *)
Lemma extract_title_empty_heading :
  extract_title (BeautifulSoup [NTag (lit "h1") None [] []]) = []
  /\ extract_title
       (BeautifulSoup
          [NTag (lit "h1") None [] [NText (lit "   ")];
           NTag (lit "h2") None [] [NText (lit "Cardiology")]]) = [].
Proof. split; reflexivity. Qed.

End Title.

(** ** Faculty links *)

Section Faculty.

Context `{db : UnicodeDB}.

Lemma dedup_inv_initial : dedup_inv (∅, []).
Proof.
  split; simpl.
  - intros k. split; intros H; [set_solver | inversion H].
  - constructor.
Qed.

Lemma dedup_step_inv st link : dedup_inv st -> dedup_inv (dedup_step st link).
Proof.
  intros [Hseen Hnd]. unfold dedup_step.
  fold (link_key link).
  destruct (decide (link_key link ∈ st.1)) as [Hin|Hout]; [split; assumption|].
  split; simpl; rewrite List.map_app; simpl.
  - intros k. rewrite elem_of_union, elem_of_singleton, elem_of_app.
    rewrite Hseen. rewrite list_elem_of_singleton. tauto.
  - apply NoDup_app. split; [exact Hnd|]. split; [|apply NoDup_singleton].
    intros x Hx Hx'. apply list_elem_of_singleton in Hx' as ->.
    apply Hout, Hseen, Hx.
Qed.

Lemma dedup_fold_inv links st :
  dedup_inv st -> dedup_inv (fold_left dedup_step links st).
Proof.
  revert st. induction links as [|l ls IH]; intros st H; simpl; [exact H|].
  apply IH, dedup_step_inv, H.
Qed.

Lemma remove_duplicates_NoDup links :
  NoDup (List.map link_key (remove_duplicates links)).
Proof. exact (proj2 (dedup_fold_inv links _ dedup_inv_initial)). Qed.

(** The loop loses no key and invents none. *)
Lemma dedup_fold_keys links st k :
  dedup_inv st ->
  k ∈ List.map link_key (fold_left dedup_step links st).2 <->
  k ∈ List.map link_key st.2 \/ k ∈ List.map link_key links.
Proof.
  revert st. induction links as [|l ls IH]; intros st H; simpl.
  - split; [auto|]. intros [H'|H']; [exact H'|inversion H'].
  - rewrite (IH _ (dedup_step_inv st l H)).
    rewrite elem_of_cons. unfold dedup_step. fold (link_key l).
    destruct (decide (link_key l ∈ st.1)) as [Hin|Hout]; simpl.
    + apply (proj1 H) in Hin. split; [tauto|].
      intros [?|[->|?]]; auto.
    + rewrite List.map_app, elem_of_app. simpl.
      rewrite list_elem_of_singleton. tauto.
Qed.

Lemma remove_duplicates_keys links k :
  k ∈ List.map link_key (remove_duplicates links) <->
  k ∈ List.map link_key links.
Proof.
  unfold remove_duplicates.
  rewrite (dedup_fold_keys links _ k dedup_inv_initial). simpl.
  split; [intros [H|H]; [inversion H|exact H] | auto].
Qed.

(** C7: the links of [extract_faculty_links] hold no (url, text) pair
    twice, and [count] is the length of that sequence. *)
Theorem extract_faculty_links_unique (soup : node) :
  NoDup (List.map (fun l => (fl_url l, fl_text l))
           (fg_links (extract_faculty_links soup)))
  /\ fg_count (extract_faculty_links soup)
     = Z.of_nat (length (fg_links (extract_faculty_links soup))).
Proof.
  split; [|reflexivity].
  apply (remove_duplicates_NoDup (collect_faculty_links soup)).
Qed.

End Faculty.

(** ** Appointment block *)

Section AppointmentProps.

Context `{db : UnicodeDB}.

Lemma phone_shape_length w : phone_shape w = true -> length w = 14%nat.
Proof.
  unfold phone_shape.
  destruct w as [|a [|d1 [|d2 [|d3 [|b rest]]]]]; try discriminate.
  intros H. repeat (apply andb_prop in H as [H ?]).
  match goal with E : (_ =? 9)%nat = true |- _ =>
    apply Nat.eqb_eq in E; simpl; rewrite E
  end.
  reflexivity.
Qed.

Lemma firstn_exact (w post : str) n :
  length w = n -> firstn n (w ++ post) = w.
Proof.
  intros <-. rewrite firstn_app, Nat.sub_diag, firstn_all. simpl.
  apply app_nil_r.
Qed.

Lemma match_phone_here_shape s w :
  match_phone_here s = Some w ->
  phone_shape w = true /\ exists post, s = w ++ post.
Proof.
  unfold match_phone_here.
  destruct (phone_shape (firstn 14 s)) eqn:E; [|discriminate].
  intros [= <-]. split; [exact E|].
  exists (skipn 14 s). symmetry. apply firstn_skipn.
Qed.

Lemma match_phone_here_none s w post :
  match_phone_here s = None -> s = w ++ post -> phone_shape w = false.
Proof.
  unfold match_phone_here. intros H ->.
  destruct (phone_shape w) eqn:E; [|reflexivity].
  rewrite (firstn_exact w post 14 (phone_shape_length w E)), E in H.
  discriminate.
Qed.

Lemma re_search_phone_some s w :
  re_search match_phone_here s = Some w -> leftmost_phone s w.
Proof.
  induction s as [|c t IH]; cbn [re_search].
  - destruct (match_phone_here []) eqn:E; [|discriminate].
    intros [= <-]. destruct (match_phone_here_shape _ _ E) as (Hs & post & Hp).
    exists [], post. repeat split; [exact Hp | exact Hs |].
    intros; simpl; lia.
  - destruct (match_phone_here (c :: t)) eqn:E.
    + intros [= <-]. destruct (match_phone_here_shape _ _ E) as (Hs & post & Hp).
      exists [], post. repeat split; [exact Hp | exact Hs |].
      intros; simpl; lia.
    + intros H. destruct (IH H) as (pre & post & Ht & Hs & Hmin).
      exists (c :: pre), post. repeat split; [simpl; now rewrite Ht | exact Hs |].
      intros pre' w' post' Heq Hs'.
      destruct pre' as [|c' pre''].
      * simpl in Heq. rewrite (match_phone_here_none _ _ _ E Heq) in Hs'.
        discriminate.
      * injection Heq as -> Heq. simpl.
        specialize (Hmin pre'' w' post' Heq Hs'). lia.
Qed.



Lemma scan_paragraphs_none ps :
  forallb (fun q => negb (mentions_request (clean_text (get_text (self q)))))
    ps = true ->
  scan_paragraphs ps = appointment_default.
Proof.
  induction ps as [|q ps IH]; simpl; [reflexivity|].
  intros H. apply andb_prop in H as [Hq H].
  apply negb_true_iff in Hq. rewrite Hq. exact (IH H).
Qed.


End AppointmentProps.


Example appointment_example_phone :
  phone_number
    (ap_components (extract_appointment_section AppointmentExample.page))
  = lit "(021)111911911".
Proof. reflexivity. Qed.

(** ** External links *)

Section ExternalLinkProps.

Context `{db : UnicodeDB}.

Lemma link_type_cases href :
  (link_type href = lit "external" <-> looks_external href = true)
  /\ (link_type href = lit "document" <->
      looks_external href = false /\ is_document href = true)
  /\ (link_type href = lit "internal" <->
      looks_external href = false /\ is_document href = false).
Proof.
  unfold link_type, looks_external, is_document.
  destruct (startswith href (lit "http") && negb (contains href (lit "aku.edu")));
    [|destruct (existsb (endswith href) DOCUMENT_EXTENSIONS)];
    (repeat split; try discriminate; try tauto;
     intros [H1 H2]; discriminate).
Qed.

(** Every element [find_all] returns has a parent. *)
Lemma walk_has_parent (n : node) :
  forall anc e, In e (walk anc n) -> ancestors e <> [].
Proof.
  induction n as [s|s|nm cls attrs cs IH] using node_induction;
    intros anc e Hin; [destruct Hin | destruct Hin |].
  cbn [walk] in Hin. apply in_flat_map in Hin as (c & Hc & [<-|Hin]).
  - discriminate.
  - rewrite List.Forall_forall in IH. exact (IH c Hc _ e Hin).
Qed.

Lemma find_all_where_has_parent soup nm p e :
  In e (find_all_where (root soup) nm p) -> ancestors e <> [].
Proof.
  unfold find_all_where, descendants. intros H.
  apply List.filter_In in H as [H _]. exact (walk_has_parent _ _ _ H).
Qed.

Lemma external_link_of_kept link :
  external_link_of link = if kept link then [entry_of link] else [].
Proof.
  unfold external_link_of, kept, entry_of.
  destruct (truthy (clean_text (get_text (self link)))); [|reflexivity].
  destruct (truthy (get_or_empty (self link) (lit "href"))); [|reflexivity].
  destruct (contains (get_or_empty (self link) (lit "href")) FINDADOCTOR);
    [reflexivity|].
  destruct (parent_is_breadcrumb link); reflexivity.
Qed.

Lemma flat_map_option_filter {A B : Type} (f : A -> list B) (keep : A -> bool)
  (g : A -> B) (l : list A) :
  (forall x, f x = if keep x then [g x] else []) ->
  flat_map f l = List.map g (List.filter keep l).
Proof.
  intros Hf. induction l as [|x l IH]; [reflexivity|].
  cbn [flat_map List.filter]. rewrite Hf, IH.
  destruct (keep x); reflexivity.
Qed.

(** C9, as the code has it: a link with text and an [href] that is not a
    doctor-search link and whose parent's class does not mention
    "breadcrumb" is emitted, with the type [external] exactly when its
    [href] starts with "http" and nowhere contains "aku.edu", else
    [document] exactly when the [href] ends in a document extension, else
    [internal]; and nothing else is emitted. *)
Theorem extract_external_links_emits (soup : node) (link : elem) :
  In link (find_all_where (root soup) (lit "a") has_href) ->
  clean_text (get_text (self link)) <> [] ->
  get_or_empty (self link) (lit "href") <> [] ->
  contains (get_or_empty (self link) (lit "href")) FINDADOCTOR = false ->
  parent_is_breadcrumb link = false ->
  let href := get_or_empty (self link) (lit "href") in
  let text := clean_text (get_text (self link)) in
  In (ExternalLink text href (link_type href)) (extract_external_links soup)
  /\ (link_type href = lit "external" <->
      startswith href (lit "http") = true
      /\ contains href (lit "aku.edu") = false)
  /\ (link_type href = lit "document" <->
      looks_external href = false /\ is_document href = true)
  /\ (link_type href = lit "internal" <->
      looks_external href = false /\ is_document href = false)
  /\ extract_external_links soup
     = List.map entry_of
         (List.filter kept (find_all_where (root soup) (lit "a") has_href)).
Proof.
  intros Hin Htext Hhref Hdoc Hcrumb. cbv zeta.
  assert (extract_external_links soup
          = List.map entry_of
              (List.filter kept
                 (find_all_where (root soup) (lit "a") has_href))) as Heq.
  { apply flat_map_option_filter, external_link_of_kept. }
  destruct (link_type_cases (get_or_empty (self link) (lit "href")))
    as (He & Hd & Hi).
  split; [|split; [|split; [exact Hd | split; [exact Hi | exact Heq]]]].
  - rewrite Heq.
    change (In (entry_of link)
              (List.map entry_of
                 (List.filter kept
                    (find_all_where (root soup) (lit "a") has_href)))).
    apply List.in_map, List.filter_In. split; [exact Hin|].
    unfold kept. rewrite Hdoc, Hcrumb.
    destruct (clean_text (get_text (self link))); [contradiction|].
    destruct (get_or_empty (self link) (lit "href")); [contradiction|].
    reflexivity.
  - rewrite He. unfold looks_external.
    rewrite andb_true_iff, negb_true_iff. tauto.
Qed.

End ExternalLinkProps.

Example extract_external_links_example :
  extract_external_links LinksExample.page
  = [ExternalLink (lit "World Health Organization")
       (lit "https://www.who.int/") (lit "external");
     ExternalLink (lit "Visitor guide") (lit "/docs/visitor-guide.pdf")
       (lit "document");
     ExternalLink (lit "All services") (lit "/pakistan/services")
       (lit "internal")].
Proof. vm_compute. reflexivity. Qed.

Lemma extract_external_links_emits_witness :
  In (ExternalLink (lit "World Health Organization")
        (lit "https://www.who.int/") (lit "external"))
    (extract_external_links LinksExample.page).
Proof.
  refine (proj1 (extract_external_links_emits LinksExample.page
                   (Elem [LinksExample.content; LinksExample.page]
                      (LinksExample.anchor "https://www.who.int/"
                         "World Health Organization"))
                   _ _ _ _ _)).
  - vm_compute. right. left. reflexivity.
  - vm_compute. discriminate.
  - vm_compute. discriminate.
  - vm_compute. reflexivity.
  - vm_compute. reflexivity.
Defined.

(** C9, as stated, fails: the URL below is absolute and its host is
    [www.who.int], not the organisation's domain, yet the link is emitted as
    [internal], because "aku.edu" occurs in its path. *)
Lemma extract_external_links_host_not_read :
  url_host LinksExample.partner_href = Some (lit "www.who.int")
  /\ own_domain (lit "www.who.int") = false
  /\ spec_link_type LinksExample.partner_href = lit "external"
  /\ extract_external_links LinksExample.partner_page
     = [ExternalLink (lit "WHO partners") LinksExample.partner_href
          (lit "internal")].
Proof. repeat split; vm_compute; reflexivity. Qed.

(** ** Slugs *)

Section SlugProps.

Context `{db : UnicodeDB}.




Lemma slugify_slug_base s max_len now :
  slugify s max_len now = rstrip is_hyphen (slice_to max_len (slug_base s now)).
Proof. reflexivity. Qed.

Lemma slug_base_head s now :
  exists c t, slug_base s now = c :: t /\ is_hyphen c = false.
Proof.
  unfold slug_base.
  set (x := sub_runs _ HYPHEN _).
  pose proof (rstrip_head is_hyphen _ (lstrip_head is_hyphen x)) as Hh.
  fold (strip is_hyphen x) in Hh.
  destruct (strip is_hyphen x) as [|c t]; simpl.
  - exists 115, (lit "ervice-" ++ str_of_Z now). split; reflexivity.
  - exists c, t. split; [reflexivity|exact Hh].
Qed.


End SlugProps.


Example slugify_examples :
  slugify (Some (lit "  Heart & Vascular -- Care_Unit ")) 90 1700000000
  = lit "heart-vascular-care-unit"
  /\ slugify (Some (lit " *** ")) 90 1700000000 = lit "service-1700000000"
  /\ slugify None 90 1700000000 = lit "service-1700000000"
  /\ slugify (Some (lit "a-b")) 2 0 = lit "a"
  /\ slugify (Some (lit "Cardiology")) 0 0 = [].
Proof. repeat split; vm_compute; reflexivity. Qed.

(** ** Publishing *)

Section PublishProps.

Import Publish.

Variable resolve_hero : str -> str.
Variable image_answer : list call -> str -> option asset.
Variable story_answer : list call -> str -> str -> option asset -> bool.

(** The combined script skips a record that fails validation: the failed
    counter goes up by one, and neither the other counter nor the trace of
    remote calls changes. *)
Lemma combined_step_skips_invalid st data :
  invalid data = true ->
  combined_step resolve_hero image_answer story_answer st (Some data)
  = skip st.
Proof.
  unfold invalid, combined_step. intros H.
  destruct (truthy (strip is_space (or_empty (js_page_title data))));
    [|reflexivity].
  simpl in H. now rewrite H.
Qed.

(** The rest of the batch is processed from the state the skip leaves. *)
Lemma run_upload_combined_skips_invalid st data rest :
  invalid data = true ->
  run_upload_combined resolve_hero image_answer story_answer st
    (Some data :: rest)
  = run_upload_combined resolve_hero image_answer story_answer (skip st) rest.
Proof.
  intros H. unfold run_upload_combined. cbn [fold_left].
  now rewrite combined_step_skips_invalid.
Qed.

(** Every record of the batch moves exactly one counter, so none is left
    out: the counters add up to the number of files. *)
Lemma publish_counts st data title description :
  let st' := publish resolve_hero image_answer story_answer st data title
               description in
  (uploaded_count st' + failed_count st'
   = uploaded_count st + failed_count st + 1)%Z.
Proof.
  unfold publish.
  destruct (truthy (or_empty (js_hero_image data)));
    match goal with |- context [if ?b then _ else _] => destruct b end;
    simpl; lia.
Qed.



(** The stand-alone uploader skips a record without a title in the same
    way. *)
Lemma uploader_step_skips_untitled st data :
  truthy (strip is_space (or_empty (js_page_title data))) = false ->
  uploader_step resolve_hero image_answer story_answer st (Some data)
  = skip st.
Proof. unfold uploader_step. now intros ->. Qed.

(** It does not skip a titled record without a body: the story is
    created. *)
Lemma uploader_step_publishes_empty_body st data :
  truthy (strip is_space (or_empty (js_page_title data))) = true ->
  exists title image,
    List.last
      (calls (uploader_step resolve_hero image_answer story_answer st
                (Some data)))
      (UploadImage [])
    = CreateStory title
        (strip is_space (or_empty (js_main_paragraphs data))) image.
Proof.
  unfold uploader_step. intros ->. cbn [negb]. unfold publish.
  destruct (truthy (or_empty (js_hero_image data)));
    match goal with |- context [if ?b then _ else _] => destruct b end;
    cbn [calls]; rewrite List.last_last; eauto.
Qed.

End PublishProps.

(** C4 on the code: the record with the empty body fails validation; the
    combined script skips it and goes on with the next record, but the
    stand-alone uploader creates a story for it. *)
Theorem run_upload_empty_body :
  Publish.invalid PublishExample.empty_body = true
  /\ Publish.run_upload_combined (fun p => p) PublishExample.no_image
       PublishExample.accept_all Publish.initial
       [Some PublishExample.empty_body; Some PublishExample.complete]
     = Publish.UploadState 1 1
         [Publish.CreateStory (lit "Oncology")
            (lit "Cancer care for all ages.") None]
  /\ Publish.run_upload (fun p => p) PublishExample.no_image
       PublishExample.accept_all Publish.initial
       [Some PublishExample.empty_body; Some PublishExample.complete]
     = Publish.UploadState 2 0
         [Publish.CreateStory (lit "Cardiology") [] None;
          Publish.CreateStory (lit "Oncology")
            (lit "Cancer care for all ages.") None].
Proof. repeat split; vm_compute; reflexivity. Qed.

(** ** Body content *)

Section BodyProps.

Context `{db : UnicodeDB}.

Lemma filter_nil_and {A : Type} (f g : A -> bool) (l : list A) :
  List.filter f l = [] -> List.filter (fun x => f x && g x) l = [].
Proof.
  induction l as [|x l IH]; simpl; [reflexivity|].
  destruct (f x); [discriminate|]. exact IH.
Qed.

(** The first element of a list that passes a test. *)
Lemma head_filter_first {A : Type} (f : A -> bool) (l : list A) (e : A) :
  head (List.filter f l) = Some e <->
  exists pre post,
    l = pre ++ e :: post /\ forallb (fun x => negb (f x)) pre = true
    /\ f e = true.
Proof.
  induction l as [|x l IH]; simpl.
  - split; [discriminate|]. intros ([|? ?] & ? & ? & _); discriminate.
  - destruct (f x) eqn:Hx; simpl.
    + split.
      * intros [= ->]. exists [], l. auto.
      * intros ([|y pre] & post & Hl & Hpre & He).
        -- now injection Hl as -> _.
        -- injection Hl as -> _. simpl in Hpre. rewrite Hx in Hpre.
           discriminate.
    + rewrite IH. split.
      * intros (pre & post & -> & Hpre & He). exists (x :: pre), post.
        simpl. rewrite Hx. auto.
      * intros ([|y pre] & post & Hl & Hpre & He).
        -- injection Hl as -> _. congruence.
        -- injection Hl as -> ->. simpl in Hpre.
           apply andb_prop in Hpre as [_ Hpre]. eauto.
Qed.

(** The selector loop stops at the first selector, in list order, that
    selects something. *)
Lemma first_selected_first soup sels e :
  first_selected soup sels = Some e <->
  exists pre sel post,
    sels = pre ++ sel :: post
    /\ List.Forall (fun s => select_one soup s = None) pre
    /\ select_one soup sel = Some e.
Proof.
  induction sels as [|s sels IH]; simpl.
  - split; [discriminate|]. intros ([|? ?] & ? & ? & ? & _); discriminate.
  - destruct (select_one soup s) as [x|] eqn:Hs.
    + split.
      * intros [= ->]. exists [], s, sels.
        split; [reflexivity|]. split; [constructor|exact Hs].
      * intros ([|y pre] & sel & post & Hl & Hpre & He).
        -- injection Hl as -> _. congruence.
        -- injection Hl as -> _. inversion Hpre; congruence.
    + rewrite IH. split.
      * intros (pre & sel & post & -> & Hpre & He).
        exists (s :: pre), sel, post.
        split; [reflexivity|]. split; [constructor; assumption|exact He].
      * intros ([|y pre] & sel & post & Hl & Hpre & He).
        -- injection Hl as -> _. congruence.
        -- injection Hl as -> ->. inversion Hpre; subst.
           exists pre, sel, post. auto.
Qed.

(** The fallback value of each field of the fragment. *)
Lemma body_of_no_paragraphs combined e :
  find_all e (lit "p") = [] ->
  main_paragraphs (body_of combined e) = []
  /\ word_count (body_of combined e) = 0%Z.
Proof.
  intros Hp. unfold body_of, body_paragraphs. cbn [main_paragraphs word_count].
  rewrite Hp. split; reflexivity.
Qed.

Lemma body_of_no_subheadings combined e :
  (forall tag, In tag [lit "h2"; lit "h3"; lit "h4"; lit "h5"; lit "h6"] ->
               find e tag = None) ->
  has_subheadings (body_of combined e) = false
  /\ subheading_tags (body_of combined e) = [].
Proof.
  intros Hh. unfold body_of, subheadings_of.
  cbn [has_subheadings subheading_tags List.filter].
  rewrite !Hh by (simpl; tauto). split; reflexivity.
Qed.

Lemma body_of_no_lists combined e :
  find e (lit "ul") = None -> find e (lit "ol") = None ->
  has_bullet_lists (body_of combined e) = false.
Proof.
  intros Hu Ho. unfold body_of, bullet_lists_in. cbn [has_bullet_lists].
  rewrite Hu, Ho. reflexivity.
Qed.

Lemma body_of_no_h4 combined e :
  find_all e (lit "h4") = [] ->
  has_collapsible_sections (body_of combined e) = false.
Proof.
  intros H4. unfold body_of, collapsible_in, find_where, find_all_where.
  cbn [has_collapsible_sections]. unfold find_all in H4.
  rewrite (filter_nil_and _ _ _ H4). reflexivity.
Qed.

Lemma body_of_no_appointment e :
  find_all e (lit "p") = [] -> find_all e (lit "strong") = [] ->
  has_appointment_section (body_of true e) = Some false.
Proof.
  intros Hp Hs.
  unfold body_of, appointment_mention, appointment_by_strong, body_paragraphs.
  cbn [has_appointment_section]. rewrite Hp, Hs. reflexivity.
Qed.

(** C5, as the code has it: body extraction always returns a fragment.
    The content region is the first selector match, else the first
    class-hinted [div] that holds a paragraph, a level-1 or a level-2
    heading, else the document body, else the root; and every field of the
    fragment has its fallback value when the elements it is read from are
    absent from the region. *)
Theorem extract_body_content_total (soup : node) :
  exists content_div,
    locate_content soup = Some content_div
    /\ content_div
       = match first_selected (root soup) CONTENT_SELECTORS with
         | Some e => e
         | None =>
             match fallback_container (root soup) with
             | Some e => e
             | None => body_or_root (root soup)
             end
         end
    /\ extract_body_content soup = Ok (body_of false content_div)
    /\ extract_body_content_combined soup = Ok (body_of true content_div)
    /\ (forall combined,
          find_all content_div (lit "p") = [] ->
          main_paragraphs (body_of combined content_div) = []
          /\ word_count (body_of combined content_div) = 0%Z)
    /\ (forall combined,
          (forall tag,
             In tag [lit "h2"; lit "h3"; lit "h4"; lit "h5"; lit "h6"] ->
             find content_div tag = None) ->
          has_subheadings (body_of combined content_div) = false
          /\ subheading_tags (body_of combined content_div) = [])
    /\ (forall combined,
          find content_div (lit "ul") = None ->
          find content_div (lit "ol") = None ->
          has_bullet_lists (body_of combined content_div) = false)
    /\ (forall combined,
          find_all content_div (lit "h4") = [] ->
          has_collapsible_sections (body_of combined content_div) = false)
    /\ (find_all content_div (lit "p") = [] ->
        find_all content_div (lit "strong") = [] ->
        has_appointment_section (body_of true content_div) = Some false)
    /\ has_appointment_section (body_of false content_div) = None.
Proof.
  assert (exists content_div,
             locate_content soup = Some content_div
             /\ content_div
                = match first_selected (root soup) CONTENT_SELECTORS with
                  | Some e => e
                  | None =>
                      match fallback_container (root soup) with
                      | Some e => e
                      | None => body_or_root (root soup)
                      end
                  end) as (content_div & Hloc & Hprec).
  { unfold locate_content.
    destruct (first_selected (root soup) CONTENT_SELECTORS) as [e|];
      cbn [tag_truthy]; [eauto|].
    destruct (fallback_container (root soup)) as [e|]; cbn [tag_truthy];
      eauto. }
  exists content_div.
  split; [exact Hloc|]. split; [exact Hprec|].
  unfold extract_body_content, extract_body_content_combined,
    extract_body_content_of. rewrite Hloc. cbn [deref].
  split; [reflexivity|]. split; [reflexivity|].
  split; [intros c; apply body_of_no_paragraphs|].
  split; [intros c; apply body_of_no_subheadings|].
  split; [intros c; apply body_of_no_lists|].
  split; [intros c; apply body_of_no_h4|].
  split; [apply body_of_no_appointment | reflexivity].
Qed.

End BodyProps.

(** C5, as stated, fails: the container below is a class-hinted [div] that
    holds a heading, but the heading is of level 3, so the region is the
    document body and the paragraph beside the container is extracted. *)
Lemma locate_content_level3_heading :
  holds_paragraph_or_heading
    (Elem [BodyExample.body; BodyExample.page] BodyExample.container) = true
  /\ spec_locate_content BodyExample.page
     = Elem [BodyExample.body; BodyExample.page] BodyExample.container
  /\ locate_content BodyExample.page
     = Some (Elem [BodyExample.page] BodyExample.body)
  /\ extract_body_content BodyExample.page
     = Ok (BodyContent
             (lit "The cardiology service cares for adults and children.")
             None 8 true [lit "h3"] false false)
  /\ main_paragraphs (body_of false (spec_locate_content BodyExample.page))
     = [].
Proof. repeat split; vm_compute; reflexivity. Qed.

(** * Properties of the other functions *)

(** ** File names and plain text *)

Section FileNames.

Lemma Forall_firstn {A : Type} (P : A -> Prop) n (l : list A) :
  List.Forall P l -> List.Forall P (firstn n l).
Proof.
  intros H. revert n. induction H as [|x l Hx Hl IH]; intros [|n]; simpl;
    constructor; auto.
Qed.




(** The normal form of [safe_text]: as for [clean_text], but a zero-width
    space may stay. *)
Lemma safe_text_normal s :
  List.Forall (fun x => x <> NBSP) (safe_text s)
  /\ tidy (safe_text s)
  /\ strip is_space (safe_text s) = safe_text s.
Proof.
  unfold safe_text. repeat split.
  - unfold strip. apply Forall_rstrip, Forall_lstrip, Forall_sub_ws.
    + discriminate.
    + apply replace_char_absent. discriminate.
  - unfold strip. apply tidy_rstrip, tidy_lstrip, sub_ws_tidy.
  - apply (strip_strip is_space).
Qed.

(** [safe_text] is idempotent. *)
Theorem safe_text_idempotent (s : option str) :
  safe_text (Some (safe_text s)) = safe_text s.
Proof.
  destruct (safe_text_normal s) as (Hch & Ht & Hs).
  unfold safe_text at 1. cbn [or_empty].
  rewrite (replace_char_id NBSP SP _ Hch), (sub_ws_tidy_id _ Ht). exact Hs.
Qed.

(** [clean_text] is [safe_text] after the zero-width spaces are dropped. *)
Lemma clean_text_safe_text s :
  clean_text s = safe_text (Some (remove_char ZWSP s)).
Proof. reflexivity. Qed.

End FileNames.

(** ** Specialty of a doctor-search link *)

Section Specialty.

Lemma take_while_Forall p s :
  List.Forall (fun c => p c = true) (take_while p s).
Proof.
  induction s as [|c t IH]; simpl; [constructor|].
  destruct (p c) eqn:E; constructor; assumption.
Qed.

Lemma take_while_app_stop p (g rest : str) :
  forallb p g = true ->
  match rest with [] => True | c :: _ => p c = false end ->
  take_while p (g ++ rest) = g.
Proof.
  intros Hg Hrest. induction g as [|c t IH]; simpl.
  - destruct rest as [|c r]; [reflexivity|]. simpl. now rewrite Hrest.
  - simpl in Hg. apply andb_prop in Hg as [Hc Ht]. rewrite Hc.
    now rewrite (IH Ht).
Qed.

Lemma match_spec_here_amp_free s g :
  match_spec_here s = Some g -> List.Forall (fun c => c <> AMP) g.
Proof.
  unfold match_spec_here. destruct s as [|c t]; [discriminate|].
  destruct (((c =? QUESTION) || (c =? AMP)) && startswith t (lit "Spec="));
    [|discriminate].
  pose proof (take_while_Forall (fun x => negb (x =? AMP)) (skipn 5 t)) as H.
  destruct (take_while (fun x => negb (x =? AMP)) (skipn 5 t)) as [|a u];
    [discriminate|].
  intros [= <-]. revert H. apply List.Forall_impl.
  intros x Hx ->. discriminate.
Qed.

Lemma re_search_spec_amp_free s g :
  re_search match_spec_here s = Some g -> List.Forall (fun c => c <> AMP) g.
Proof.
  induction s as [|c t IH]; cbn [re_search].
  - destruct (match_spec_here []) eqn:E; [|discriminate].
    intros [= <-]. exact (match_spec_here_amp_free _ _ E).
  - destruct (match_spec_here (c :: t)) eqn:E.
    + intros [= <-]. exact (match_spec_here_amp_free _ _ E).
    + exact IH.
Qed.

Lemma re_search_spec_skip (base s : str) :
  forallb (fun c => negb ((c =? QUESTION) || (c =? AMP))) base = true ->
  s <> [] ->
  re_search match_spec_here (base ++ s) = re_search match_spec_here s.
Proof.
  intros Hb Hs. induction base as [|c t IH]; [reflexivity|].
  simpl in Hb. apply andb_prop in Hb as [Hc Ht].
  change ((c :: t) ++ s) with (c :: (t ++ s)). cbn [re_search].
  unfold match_spec_here at 1.
  apply negb_true_iff in Hc. rewrite Hc. cbn [andb]. exact (IH Ht).
Qed.

(** The specialty read from a URL never contains an ampersand; and a
    specialty written as the first query parameter [?Spec=...] of a URL is
    read back unchanged, whatever follows it after an ampersand. *)
Theorem extract_specialty_round_trip (url base g rest : str) :
  forallb (fun c => negb ((c =? QUESTION) || (c =? AMP))) base = true ->
  g <> [] ->
  forallb (fun c => negb (c =? AMP)) g = true ->
  match rest with [] => True | c :: _ => c = AMP end ->
  List.Forall (fun c => c <> AMP) (extract_specialty_from_url url)
  /\ extract_specialty_from_url (base ++ lit "?Spec=" ++ g ++ rest) = g.
Proof.
  intros Hbase Hg Hamp Hrest. split.
  - unfold extract_specialty_from_url.
    destruct (re_search match_spec_here url) as [m|] eqn:E; [|constructor].
    exact (re_search_spec_amp_free _ _ E).
  - unfold extract_specialty_from_url.
    rewrite re_search_spec_skip by (assumption || discriminate).
    destruct g as [|a u]; [contradiction|].
    change (lit "?Spec=" ++ (a :: u) ++ rest)
      with (QUESTION :: lit "Spec=" ++ (a :: u) ++ rest).
    cbn [re_search]. unfold match_spec_here.
    change (skipn 5 (lit "Spec=" ++ (a :: u) ++ rest))
      with ((a :: u) ++ rest).
    change (startswith (lit "Spec=" ++ (a :: u) ++ rest) (lit "Spec="))
      with true.
    change (((QUESTION =? QUESTION) || (QUESTION =? AMP)) && true) with true.
    cbv iota.
    rewrite take_while_app_stop.
    + reflexivity.
    + exact Hamp.
    + destruct rest as [|c r]; [exact I|]. now rewrite Hrest.
Qed.

End Specialty.

Lemma extract_specialty_round_trip_witness :
  List.Forall (fun c => c <> AMP)
    (extract_specialty_from_url (lit "/findadoctor.aspx?Dept=1&Spec=Ear&x=2"))
  /\ extract_specialty_from_url
       (lit "/pakistan/findadoctor.aspx" ++ lit "?Spec=" ++ lit "Cardiology"
        ++ lit "&page=2")
     = lit "Cardiology".
Proof.
  apply (extract_specialty_round_trip
           (lit "/findadoctor.aspx?Dept=1&Spec=Ear&x=2")
           (lit "/pakistan/findadoctor.aspx") (lit "Cardiology")
           (lit "&page=2")).
  - reflexivity.
  - discriminate.
  - reflexivity.
  - reflexivity.
Defined.

(** ** Subsection links *)

Section SubsectionProps.

Context `{db : UnicodeDB}.

Lemma Forall_flat_map {A B : Type} (P : B -> Prop) (f : A -> list B)
  (l : list A) :
  (forall x, List.Forall P (f x)) -> List.Forall P (flat_map f l).
Proof.
  intros Hf. induction l as [|x l IH]; simpl; [constructor|].
  apply List.Forall_app. split; [apply Hf | exact IH].
Qed.

Lemma clean_text_clean s : clean_text (clean_text s) = clean_text s.
Proof. apply clean_text_fixes_normalized, clean_text_normalized. Qed.

Lemma subsection_link_of_meaningful li :
  List.Forall
    (fun link => (2 < length link.1)%nat
                 /\ startswith link.1 HASHMARK = false
                 /\ clean_text link.1 = link.1)
    (subsection_link_of li).
Proof.
  unfold subsection_link_of.
  destruct (find_where li (lit "a") has_href) as [link|]; [|constructor].
  destruct (truthy (clean_text (get_text (self link)))); [|constructor].
  destruct (Nat.ltb_spec 2 (length (clean_text (get_text (self link)))));
    [|constructor].
  destruct (startswith (clean_text (get_text (self link))) HASHMARK) eqn:E;
    constructor; [|constructor].
  simpl. split; [assumption|]. split; [exact E|]. apply clean_text_clean.
Qed.

(** The subsection group is consistent: [present] says that there is a
    link, [count] is their number, and every link text is a cleaned text of
    more than two characters that does not start with a hash mark. *)
Theorem extract_subsection_links_invariants (soup : node) :
  let g := extract_subsection_links soup in
  (sg_present g = true <-> sg_links g <> [])
  /\ sg_count g = Z.of_nat (length (sg_links g))
  /\ List.Forall
       (fun link => (2 < length link.1)%nat
                    /\ startswith link.1 HASHMARK = false
                    /\ clean_text link.1 = link.1)
       (sg_links g).
Proof.
  unfold extract_subsection_links. cbn [sg_present sg_count sg_links].
  split; [|split; [reflexivity|]].
  - match goal with |- context [length ?l] => destruct l end; simpl.
    + split; [discriminate | congruence].
    + split; [discriminate | reflexivity].
  - apply Forall_flat_map. intros ul.
    destruct (inside_navigation ul); [constructor|].
    apply Forall_flat_map, subsection_link_of_meaningful.
Qed.

End SubsectionProps.

(** ** Faculty links: what is collected and what is kept *)

Section FacultyMore.

Context `{db : UnicodeDB}.

Lemma faculty_pattern1_doctor soup :
  List.Forall doctor_search_link (faculty_pattern1 soup).
Proof.
  unfold faculty_pattern1. apply Forall_flat_map. intros h4.
  destruct (find_where h4 (lit "a") has_href) as [link|]; [|constructor].
  destruct (contains (get_or_empty (self link) (lit "href")) FINDADOCTOR)
    eqn:E; constructor; [|constructor].
  split; [exact E|]. split; [reflexivity|]. apply clean_text_clean.
Qed.

Lemma faculty_pattern2_step_doctor acc link :
  List.Forall doctor_search_link acc ->
  List.Forall doctor_search_link (faculty_pattern2_step acc link).
Proof.
  intros Hacc. unfold faculty_pattern2_step.
  destruct (contains (get_or_empty (self link) (lit "href")) FINDADOCTOR)
    eqn:E; cbn [andb]; [|exact Hacc].
  destruct (negb (tag_in_nones (List.map (fun _ => PyNone) acc)));
    [|exact Hacc].
  match goal with |- context [if ?b then _ else _] => destruct b end;
    [|exact Hacc].
  apply List.Forall_app. split; [exact Hacc|].
  constructor; [|constructor].
  split; [exact E|]. split; [reflexivity|]. apply clean_text_clean.
Qed.

Lemma collect_faculty_links_doctor soup :
  List.Forall doctor_search_link (collect_faculty_links soup).
Proof.
  unfold collect_faculty_links.
  generalize (faculty_pattern1_doctor soup).
  generalize (faculty_pattern1 soup) as acc.
  induction (find_all_where (root soup) (lit "a") has_href) as [|l ls IH];
    intros acc Hacc; simpl; [exact Hacc|].
  apply IH, faculty_pattern2_step_doctor, Hacc.
Qed.

(** The loop that removes duplicates keeps a subsequence of its input. *)
Lemma dedup_fold_sublist links st done :
  st.2 `sublist_of` done ->
  (fold_left dedup_step links st).2 `sublist_of` (done ++ links).
Proof.
  revert st done. induction links as [|l ls IH]; intros st done H; simpl.
  - now rewrite app_nil_r.
  - replace (done ++ l :: ls) with ((done ++ [l]) ++ ls)
      by (now rewrite <- app_assoc).
    apply IH. unfold dedup_step.
    destruct (decide ((fl_url l, fl_text l) ∈ st.1)); simpl.
    + now apply sublist_inserts_r.
    + now apply sublist_app.
Qed.

Lemma remove_duplicates_sublist links :
  remove_duplicates links `sublist_of` links.
Proof.
  unfold remove_duplicates.
  exact (dedup_fold_sublist links (∅, []) [] (sublist_nil)).
Qed.

Lemma faculty_links_doctor soup :
  List.Forall doctor_search_link (fg_links (extract_faculty_links soup)).
Proof.
  unfold extract_faculty_links. cbn [fg_links].
  pose proof (collect_faculty_links_doctor soup) as H.
  pose proof (remove_duplicates_sublist (collect_faculty_links soup)) as Hs.
  rewrite List.Forall_forall in *. intros l Hl. apply H.
  apply list_elem_of_In. eapply elem_of_sublist; [|exact Hs].
  now apply list_elem_of_In.
Qed.

(** Every faculty link goes to the doctor-search page, carries the
    specialty read from its own URL and a cleaned text; and [pattern] is
    "none", "single" or "multiple" as [count] is zero, one or more. *)
Theorem extract_faculty_links_invariants (soup : node) :
  let g := extract_faculty_links soup in
  List.Forall doctor_search_link (fg_links g)
  /\ (0 <= fg_count g)%Z
  /\ (fg_pattern g = lit "none" <-> fg_count g = 0%Z)
  /\ (fg_pattern g = lit "single" <-> fg_count g = 1%Z)
  /\ (fg_pattern g = lit "multiple" <-> (1 < fg_count g)%Z).
Proof.
  cbv zeta. split; [apply faculty_links_doctor|].
  unfold extract_faculty_links. cbn [fg_links fg_count fg_pattern].
  - split; [lia|].
    destruct (length (remove_duplicates (collect_faculty_links soup)))
      as [|[|n]]; cbn [Nat.eqb Nat.ltb Nat.leb].
    + repeat split; try reflexivity; try discriminate; lia.
    + repeat split; try reflexivity; try discriminate; lia.
    + repeat split; try reflexivity; try discriminate; lia.
Qed.

(** Removing duplicates keeps the links in their order of collection,
    drops nothing but repetitions, and adds nothing: the links kept are a
    subsequence of the links collected, with the same (url, text) pairs. *)
Theorem extract_faculty_links_keeps_first (soup : node) :
  fg_links (extract_faculty_links soup)
    `sublist_of` collect_faculty_links soup
  /\ (forall k : str * str,
        k ∈ List.map (fun l => (fl_url l, fl_text l))
              (fg_links (extract_faculty_links soup))
        <-> k ∈ List.map (fun l => (fl_url l, fl_text l))
                  (collect_faculty_links soup)).
Proof.
  split.
  - apply remove_duplicates_sublist.
  - intros k. apply (remove_duplicates_keys (collect_faculty_links soup) k).
Qed.

End FacultyMore.

(** ** External links: what is never listed *)

Section ExternalMore.

Context `{db : UnicodeDB}.

Lemma link_type_literal href :
  In (link_type href) [lit "external"; lit "document"; lit "internal"].
Proof.
  unfold link_type.
  repeat match goal with |- context [if ?b then _ else _] => destruct b end;
    simpl; tauto.
Qed.

Lemma external_link_of_sound link :
  List.Forall
    (fun e => el_text e <> [] /\ el_url e <> []
              /\ contains (el_url e) FINDADOCTOR = false
              /\ el_type e = link_type (el_url e))
    (external_link_of link).
Proof.
  rewrite external_link_of_kept. unfold kept, entry_of.
  destruct (clean_text (get_text (self link))) as [|c t]; [constructor|].
  destruct (get_or_empty (self link) (lit "href")) as [|h u]; [constructor|].
  cbn [truthy andb].
  destruct (contains (h :: u) FINDADOCTOR) eqn:E; [constructor|].
  cbn [negb andb]. destruct (parent_is_breadcrumb link); [constructor|].
  constructor; [|constructor]. cbn. repeat split; try discriminate.
  exact E.
Qed.

(** Every external link has a text and a URL, its URL is no doctor-search
    URL, and its type is the one its URL gives, one of "external",
    "document" and "internal"; so no URL is listed both among the external
    links and among the faculty links. *)
Theorem extract_external_links_sound (soup : node) :
  List.Forall
    (fun e => el_text e <> [] /\ el_url e <> []
              /\ contains (el_url e) FINDADOCTOR = false
              /\ el_type e = link_type (el_url e)
              /\ In (el_type e)
                   [lit "external"; lit "document"; lit "internal"])
    (extract_external_links soup)
  /\ (forall e l,
        In e (extract_external_links soup) ->
        In l (fg_links (extract_faculty_links soup)) ->
        el_url e <> fl_url l).
Proof.
  assert (List.Forall
            (fun e => el_text e <> [] /\ el_url e <> []
                      /\ contains (el_url e) FINDADOCTOR = false
                      /\ el_type e = link_type (el_url e))
            (extract_external_links soup)) as H.
  { apply Forall_flat_map, external_link_of_sound. }
  split.
  - revert H. apply List.Forall_impl. intros e (H1 & H2 & H3 & H4).
    repeat split; try assumption. rewrite H4. apply link_type_literal.
  - intros e l He Hl Heq.
    rewrite List.Forall_forall in H. destruct (H e He) as (_ & _ & Hno & _).
    pose proof (faculty_links_doctor soup) as Hdoc.
    rewrite List.Forall_forall in Hdoc.
    destruct (Hdoc l Hl) as (Hyes & _). congruence.
Qed.

End ExternalMore.

(** ** Appointment block: presence *)

Section AppointmentMore.

Context `{db : UnicodeDB}.

Lemma appointment_of_shape p :
  ap_present (appointment_of p) = true
  /\ heading (ap_components (appointment_of p)) = lit "Request an Appointment"
  /\ (phone_number (ap_components (appointment_of p)) = []
      \/ phone_shape (phone_number (ap_components (appointment_of p))) = true).
Proof.
  split; [reflexivity|]. split; [reflexivity|]. cbn.
  destruct (re_search match_phone_here (clean_text (get_text (self p))))
    as [w|] eqn:E; [right|left; reflexivity].
  destruct (re_search_phone_some _ _ E) as (_ & _ & _ & Hs & _). exact Hs.
Qed.

Lemma scan_paragraphs_present ps :
  ap_present (scan_paragraphs ps)
  = existsb (fun p => mentions_request (clean_text (get_text (self p)))) ps.
Proof.
  induction ps as [|p ps IH]; simpl; [reflexivity|].
  destruct (mentions_request (clean_text (get_text (self p)))); simpl;
    [reflexivity | exact IH].
Qed.

Lemma scan_paragraphs_shape ps :
  scan_paragraphs ps = appointment_default
  \/ exists p, In p ps /\ scan_paragraphs ps = appointment_of p.
Proof.
  induction ps as [|p ps IH]; simpl; [left; reflexivity|].
  destruct (mentions_request (clean_text (get_text (self p)))).
  - right. exists p. auto.
  - destruct IH as [IH|(q & Hq & IH)]; [left; exact IH|].
    right. exists q. auto.
Qed.

(** The appointment block is present exactly when some paragraph of the
    document has the request phrase; when it is absent every component
    keeps its initial value; and the phone number is either empty or of the
    shape "(" three digits ")" nine digits. *)
Theorem extract_appointment_section_presence (soup : node) :
  let a := extract_appointment_section soup in
  ap_present a
  = existsb (fun p => mentions_request (clean_text (get_text (self p))))
      (find_all (root soup) (lit "p"))
  /\ (ap_present a = false -> a = appointment_default)
  /\ (ap_present a = true ->
      heading (ap_components a) = lit "Request an Appointment")
  /\ (phone_number (ap_components a) = []
      \/ phone_shape (phone_number (ap_components a)) = true).
Proof.
  unfold extract_appointment_section. cbv zeta.
  split; [apply scan_paragraphs_present|].
  destruct (scan_paragraphs_shape (find_all (root soup) (lit "p")))
    as [->|(p & _ & ->)].
  - split; [reflexivity|]. split; [discriminate|]. left. reflexivity.
  - destruct (appointment_of_shape p) as (Hp & Hh & Hphone).
    split; [rewrite Hp; discriminate|]. split; [intros _; exact Hh|].
    exact Hphone.
Qed.

End AppointmentMore.

(** ** Body content: words and subheadings *)

Section BodyMore.

Context `{db : UnicodeDB}.

Lemma split_ws_from_trailing cur a c :
  is_space c = true -> split_ws_from cur (a ++ [c]) = split_ws_from cur a.
Proof.
  intros Hc. revert cur. induction a as [|x a IH]; intros cur; simpl.
  - rewrite Hc. destruct cur; reflexivity.
  - destruct (is_space x); [destruct cur|]; now rewrite IH.
Qed.

Lemma split_ws_from_break cur a c b :
  is_space c = true ->
  split_ws_from cur (a ++ c :: b) = split_ws_from cur a ++ split_ws_from [] b.
Proof.
  intros Hc. revert cur. induction a as [|x a IH]; intros cur; simpl.
  - rewrite Hc. destruct cur; reflexivity.
  - destruct (is_space x); [destruct cur|]; now rewrite IH.
Qed.

Lemma split_ws_blank_line a b :
  split_ws (a ++ [NEWLINE; NEWLINE] ++ b) = split_ws a ++ split_ws b.
Proof.
  unfold split_ws. cbn [app].
  rewrite (split_ws_from_break [] a NEWLINE (NEWLINE :: b) eq_refl).
  reflexivity.
Qed.

Lemma split_ws_join ps :
  split_ws (join [NEWLINE; NEWLINE] ps) = concat (List.map split_ws ps).
Proof.
  induction ps as [|p ps IH]; [reflexivity|].
  destruct ps as [|q ps].
  - simpl. now rewrite app_nil_r.
  - change (join [NEWLINE; NEWLINE] (p :: q :: ps))
      with (p ++ [NEWLINE; NEWLINE] ++ join [NEWLINE; NEWLINE] (q :: ps)).
    rewrite split_ws_blank_line, IH. reflexivity.
Qed.

Lemma split_ws_from_pending cur s : cur <> [] -> split_ws_from cur s <> [].
Proof.
  revert cur. induction s as [|c t IH]; intros cur Hcur; simpl.
  - destruct cur; [contradiction|discriminate].
  - destruct (is_space c); [destruct cur; [contradiction|discriminate]|].
    apply IH. discriminate.
Qed.

Lemma clean_text_head s :
  match clean_text s with [] => True | c :: _ => is_space c = false end.
Proof. unfold clean_text, strip. apply rstrip_head, lstrip_head. Qed.

Lemma split_ws_clean_text s :
  clean_text s <> [] -> split_ws (clean_text s) <> [].
Proof.
  intros Hne. pose proof (clean_text_head s) as Hh.
  destruct (clean_text s) as [|c t]; [contradiction|].
  unfold split_ws. simpl. rewrite Hh. apply split_ws_from_pending.
  discriminate.
Qed.

Lemma body_paragraphs_words content_div :
  List.Forall (fun p => p <> [] /\ split_ws p <> [])
    (body_paragraphs content_div).
Proof.
  unfold body_paragraphs. apply Forall_flat_map. intros p.
  destruct (clean_text (get_text (self p))) as [|c t] eqn:E; [constructor|].
  cbn [truthy andb].
  destruct ((10 <? length (c :: t))%nat); [|constructor].
  destruct (negb (existsb (contains (c :: t)) EXCLUDED_SECTIONS));
    constructor; [|constructor].
  split; [discriminate|]. rewrite <- E. apply split_ws_clean_text.
  rewrite E. discriminate.
Qed.

Lemma list_sum_positive (l : list nat) :
  List.Forall (fun n => (1 <= n)%nat) l -> (length l <= list_sum l)%nat.
Proof. induction 1; simpl; lia. Qed.

Lemma length_concat_sum {A : Type} (ls : list (list A)) :
  length (concat ls) = list_sum (List.map (@length A) ls).
Proof.
  induction ls as [|l ls IH]; [reflexivity|].
  simpl. rewrite length_app, IH. reflexivity.
Qed.

(** The word count is the sum of the word counts of the extracted
    paragraphs, each of which has at least one word; so it is zero exactly
    when the body text is empty.  [has_subheadings] says that
    [subheading_tags] is not empty, and a level is listed exactly when the
    region has a heading of that level. *)
Theorem body_of_invariants (combined : bool) (content_div : elem) :
  let b := body_of combined content_div in
  word_count b
  = Z.of_nat (list_sum (List.map (fun p => length (split_ws p))
                          (body_paragraphs content_div)))
  /\ (Z.of_nat (length (body_paragraphs content_div)) <= word_count b)%Z
  /\ (word_count b = 0%Z <-> main_paragraphs b = [])
  /\ (has_subheadings b = true <-> subheading_tags b <> [])
  /\ (forall tag,
        In tag (subheading_tags b) <->
        In tag [lit "h2"; lit "h3"; lit "h4"; lit "h5"; lit "h6"]
        /\ find content_div tag <> None).
Proof.
  unfold body_of.
  cbn [word_count main_paragraphs has_subheadings subheading_tags].
  pose proof (body_paragraphs_words content_div) as Hw.
  set (ps := body_paragraphs content_div) in *.
  assert (length (split_ws (join [NEWLINE; NEWLINE] ps))
          = list_sum (List.map (fun p => length (split_ws p)) ps)) as Hsum.
  { rewrite split_ws_join, length_concat_sum, List.map_map. reflexivity. }
  assert (length ps
          <= list_sum (List.map (fun p => length (split_ws p)) ps))%nat
    as Hle.
  { rewrite <- (length_map (fun p => length (split_ws p)) ps) at 1.
    apply list_sum_positive. apply List.Forall_map.
    revert Hw. apply List.Forall_impl. intros p [_ Hp].
    destruct (split_ws p); [contradiction|simpl; lia]. }
  split; [now rewrite Hsum|]. split; [rewrite Hsum; lia|]. split.
  - rewrite Hsum. destruct ps as [|p ps'] eqn:Eps.
    + simpl. tauto.
    + cbn [length] in Hle. split; [lia|]. intros Hmain. exfalso.
      apply List.Forall_inv in Hw as [Hp _]. apply Hp.
      destruct ps'; simpl in Hmain; [exact Hmain|].
      now apply app_eq_nil in Hmain as [-> _].
  - split.
    + destruct (subheadings_of content_div);
        split; congruence || discriminate.
    + intros tag. unfold subheadings_of. rewrite List.filter_In.
      destruct (find content_div tag); cbn [tag_truthy];
        split; intros [H1 H2]; split; congruence || discriminate.
Qed.

End BodyMore.

(** ** The assembled record and its label *)

Section ScrapeProps.

Context `{db : UnicodeDB}.

Lemma locate_content_found soup : exists e, locate_content soup = Some e.
Proof.
  unfold locate_content.
  destruct (first_selected (root soup) CONTENT_SELECTORS) as [e|];
    cbn [tag_truthy]; [eauto|].
  destruct (fallback_container (root soup)) as [e|]; cbn [tag_truthy]; eauto.
Qed.

(** What each label says about the record it is given to. *)
Lemma classify_page_type_labels (d : page_data) :
  (classify_page_type d = lit "parent_overview" <->
   sg_present (pd_subsection_links d) = true)
  /\ (pd_has_h1_title d = false ->
      In (classify_page_type d) [lit "parent_overview"; lit "service_complex"])
  /\ (classify_page_type d = lit "multi_specialty" ->
      (4 <= fg_count (pd_faculty_links d))%Z)
  /\ (classify_page_type d = lit "simple" ->
      fg_count (pd_faculty_links d) = 1%Z
      /\ ap_present (pd_appointment_section d) = false)
  /\ (classify_page_type d = lit "structured" ->
      fg_count (pd_faculty_links d) = 0%Z
      /\ has_subheadings (pd_body_content d) = true).
Proof.
  unfold classify_page_type.
  destruct (sg_present (pd_subsection_links d)).
  { repeat split; try discriminate; simpl; tauto. }
  destruct (pd_has_h1_title d); cbn [negb].
  2: { repeat split; try discriminate; simpl; tauto. }
  destruct (has_collapsible_sections (pd_body_content d)).
  { repeat split; try discriminate. }
  destruct (Z.gtb_spec (fg_count (pd_faculty_links d)) 3).
  { repeat split; try discriminate. lia. }
  destruct (Z.eqb_spec (fg_count (pd_faculty_links d)) 1);
    destruct (ap_present (pd_appointment_section d)); cbn [negb andb].
  all: try (repeat split; try discriminate; assumption).
  all: destruct (has_subheadings (pd_body_content d)); cbn [andb];
    destruct (Z.eqb_spec (fg_count (pd_faculty_links d)) 0);
    repeat split; try discriminate; try assumption.
Qed.

(** A parsed page always gives a record: no extractor raises.  Its label
    is "parent_overview" exactly when subsection links were found; without
    a level-1 heading it is "parent_overview" or "service_complex";
    "multi_specialty" means at least four faculty links, "simple" exactly
    one faculty link and no appointment paragraph, "structured" no faculty
    link and at least one subheading level. *)
Theorem scrape_document_labels (combined : bool) (url : str) (soup : node) :
  exists r,
    scrape_document combined url soup = Some r
    /\ (page_type_classification r = lit "parent_overview" <->
        sg_links (extract_subsection_links soup) <> [])
    /\ (find (root soup) (lit "h1") = None ->
        In (page_type_classification r)
          [lit "parent_overview"; lit "service_complex"])
    /\ (page_type_classification r = lit "multi_specialty" ->
        (4 <= length (fg_links (extract_faculty_links soup)))%nat)
    /\ (page_type_classification r = lit "simple" ->
        length (fg_links (extract_faculty_links soup)) = 1%nat
        /\ ap_present (extract_appointment_section soup) = false)
    /\ (page_type_classification r = lit "structured" ->
        fg_links (extract_faculty_links soup) = []
        /\ subheading_tags (pd_body_content (sc_data r)) <> []).
Proof.
  unfold scrape_document, extract_body_content_of.
  destruct (locate_content_found soup) as (e & ->). cbn [deref].
  eexists. split; [reflexivity|]. cbn [page_type_classification sc_data].
  match goal with |- context [classify_page_type ?d] =>
    destruct (classify_page_type_labels d) as (Hp & Hh & Hm & Hs & Hst)
  end.
  cbn [pd_subsection_links pd_has_h1_title pd_faculty_links
       pd_appointment_section pd_body_content] in *.
  split; [|split; [|split; [|split]]].
  - rewrite Hp. unfold extract_subsection_links. cbn [sg_present sg_links].
    match goal with |- context [length ?l] => destruct l end; simpl.
    + split; [discriminate | congruence].
    + split; [discriminate | reflexivity].
  - intros Hnone. apply Hh. now rewrite Hnone.
  - intros H. specialize (Hm H). unfold extract_faculty_links in *.
    cbn [fg_count fg_links] in *. lia.
  - intros H. destruct (Hs H) as [H1 H2]. split; [|exact H2].
    unfold extract_faculty_links in *. cbn [fg_count fg_links] in *. lia.
  - intros H. destruct (Hst H) as [H1 H2]. split.
    + unfold extract_faculty_links in *. cbn [fg_count fg_links] in *.
      destruct (remove_duplicates (collect_faculty_links soup));
        [reflexivity | simpl in H1; lia].
    + unfold body_of in *. cbn [has_subheadings subheading_tags] in *.
      destruct (subheadings_of e); [discriminate | discriminate].
Qed.

End ScrapeProps.

(** ** Publishing: counters and what is sent *)

Section PublishMore.

Import Publish.

Variable resolve_hero : str -> str.
Variable image_answer : list call -> str -> option asset.
Variable story_answer : list call -> str -> str -> option asset -> bool.



(** What [publish] adds to the trace: at most one image upload, then
    exactly one story with the title and the description it was given. *)
Lemma publish_calls st data title description :
  exists image,
    calls (publish resolve_hero image_answer story_answer st data title
             description)
    = calls st
      ++ (if truthy (or_empty (js_hero_image data))
          then [UploadImage (resolve_hero (or_empty (js_hero_image data)))]
          else [])
      ++ [CreateStory title description image].
Proof.
  unfold publish.
  destruct (truthy (or_empty (js_hero_image data)));
    match goal with |- context [if ?b then _ else _] => destruct b end;
    cbn [calls]; eexists; rewrite <- ?app_assoc; try rewrite app_nil_l;
    reflexivity.
Qed.

Lemma publish_uploaded st data title description :
  let st' := publish resolve_hero image_answer story_answer st data title
               description in
  (uploaded_count st <= uploaded_count st' <= uploaded_count st + 1)%Z
  /\ (failed_count st <= failed_count st')%Z.
Proof.
  unfold publish.
  destruct (truthy (or_empty (js_hero_image data)));
    match goal with |- context [if ?b then _ else _] => destruct b end;
    simpl; lia.
Qed.


Lemma strip_fixed p s : strip p (strip p s) = strip p s.
Proof. apply strip_strip. Qed.

Lemma publish_story_ok need_body st data title description :
  List.Forall (story_call_ok need_body) (calls st) ->
  title <> [] -> strip is_space title = title ->
  (need_body = true -> description <> []) ->
  List.Forall (story_call_ok need_body)
    (calls (publish resolve_hero image_answer story_answer st data title
              description)).
Proof.
  intros Hst Ht Hs Hd.
  destruct (publish_calls st data title description) as (image & ->).
  apply List.Forall_app. split; [exact Hst|].
  apply List.Forall_app. split.
  - destruct (truthy (or_empty (js_hero_image data))); repeat constructor.
  - constructor; [|constructor]. simpl. auto.
Qed.

Lemma combined_step_story_ok st file :
  List.Forall (story_call_ok true) (calls st) ->
  List.Forall (story_call_ok true)
    (calls (combined_step resolve_hero image_answer story_answer st file)).
Proof.
  intros Hst. unfold combined_step. destruct file as [data|]; [|exact Hst].
  destruct (strip is_space (or_empty (js_page_title data))) as [|c t] eqn:Et;
    cbn [truthy negb]; [exact Hst|].
  destruct (strip is_space (or_empty (js_main_paragraphs data)))
    as [|d u] eqn:Ed; cbn [truthy negb]; [exact Hst|].
  apply publish_story_ok; try assumption; try discriminate.
  rewrite <- Et. apply strip_fixed.
Qed.

Lemma uploader_step_story_ok st file :
  List.Forall (story_call_ok false) (calls st) ->
  List.Forall (story_call_ok false)
    (calls (uploader_step resolve_hero image_answer story_answer st file)).
Proof.
  intros Hst. unfold uploader_step. destruct file as [data|]; [|exact Hst].
  destruct (strip is_space (or_empty (js_page_title data))) as [|c t] eqn:Et;
    cbn [truthy negb]; [exact Hst|].
  apply publish_story_ok; try assumption; try discriminate.
  rewrite <- Et. apply strip_fixed.
Qed.

(** Neither loop ever asks the remote service for a story without a
    title, and the title it sends has no whitespace at either end; the
    combined script never asks for a story without a body either. *)
Theorem run_upload_never_sends_empty (files : list (option persisted)) :
  List.Forall (story_call_ok true) (calls (run_upload_combined resolve_hero image_answer story_answer initial
       files))
  /\ List.Forall (story_call_ok false) (calls (run_upload resolve_hero image_answer story_answer initial files)).
Proof.
  split.
  - unfold run_upload_combined.
    assert (List.Forall (story_call_ok true) (calls initial)) as H
      by constructor.
    revert H. generalize initial as st.
    induction files as [|f fs IH]; intros st H; simpl; [exact H|].
    apply IH, combined_step_story_ok, H.
  - unfold run_upload.
    assert (List.Forall (story_call_ok false) (calls initial)) as H
      by constructor.
    revert H. generalize initial as st.
    induction files as [|f fs IH]; intros st H; simpl; [exact H|].
    apply IH, uploader_step_story_ok, H.
Qed.

End PublishMore.

(** ** From a scraped page to a published story *)

Section EndToEnd.

Context `{db : UnicodeDB}.

Import Publish.

Variable resolve_hero : str -> str.
Variable image_answer : list call -> str -> option asset.
Variable story_answer : list call -> str -> str -> option asset -> bool.

Lemma rstrip_app p (a b : str) :
  rstrip p b <> [] -> rstrip p (a ++ b) = a ++ rstrip p b.
Proof.
  intros Hb. induction a as [|x a IH]; [reflexivity|].
  cbn [app rstrip]. rewrite IH.
  destruct (a ++ rstrip p b) eqn:E; [|reflexivity].
  apply app_eq_nil in E as [_ E]. contradiction.
Qed.

Lemma rstrip_clean_text s : rstrip is_space (clean_text s) = clean_text s.
Proof. unfold clean_text, strip. apply rstrip_rstrip. Qed.

(** The paragraphs of the body are cleaned texts that are not empty. *)
Lemma body_paragraphs_clean content_div :
  List.Forall
    (fun p => p <> [] /\ rstrip is_space p = p
              /\ match p with [] => True | c :: _ => is_space c = false end)
    (body_paragraphs content_div).
Proof.
  unfold body_paragraphs. apply Forall_flat_map. intros p.
  pose proof (clean_text_head (get_text (self p))) as Hh.
  pose proof (rstrip_clean_text (get_text (self p))) as Hr.
  destruct (clean_text (get_text (self p))) as [|c t]; [constructor|].
  cbn [truthy andb].
  destruct ((10 <? length (c :: t))%nat); [|constructor].
  destruct (negb (existsb (contains (c :: t)) EXCLUDED_SECTIONS));
    constructor; [|constructor].
  split; [discriminate|]. split; assumption.
Qed.

Lemma join_paragraphs_head ps :
  List.Forall
    (fun p => p <> [] /\ rstrip is_space p = p
              /\ match p with [] => True | c :: _ => is_space c = false end)
    ps ->
  match join [NEWLINE; NEWLINE] ps with
  | [] => ps = []
  | c :: _ => is_space c = false
  end.
Proof.
  destruct 1 as [|p ps (Hne & _ & Hh) _]; [reflexivity|].
  destruct p as [|c t]; [contradiction|].
  destruct ps; exact Hh.
Qed.

Lemma strip_join_paragraphs ps :
  List.Forall
    (fun p => p <> [] /\ rstrip is_space p = p
              /\ match p with [] => True | c :: _ => is_space c = false end)
    ps ->
  strip is_space (join [NEWLINE; NEWLINE] ps) = join [NEWLINE; NEWLINE] ps.
Proof.
  intros Hps. pose proof (join_paragraphs_head ps Hps) as Hhead.
  unfold strip. rewrite lstrip_id.
  2: { destruct (join [NEWLINE; NEWLINE] ps); [exact I|exact Hhead]. }
  clear Hhead.
  induction Hps as [|p ps (Hne & Hr & Hh) Hps IH]; [reflexivity|].
  destruct ps as [|q ps]; [exact Hr|].
  change (join [NEWLINE; NEWLINE] (p :: q :: ps))
    with (p ++ [NEWLINE; NEWLINE] ++ join [NEWLINE; NEWLINE] (q :: ps)).
  rewrite app_assoc, rstrip_app; rewrite IH; [reflexivity|].
  pose proof (join_paragraphs_head (q :: ps) Hps) as Hq.
  destruct (join [NEWLINE; NEWLINE] (q :: ps)); discriminate.
Qed.

(** The combined script publishes a scraped page exactly when the page
    has a title and a body: it then asks for one story whose title and
    description are the scraped [page_title] and [main_paragraphs],
    unchanged; otherwise it skips the record without a remote call. *)
Theorem scraped_page_published (combined : bool) (url : str) (soup : node)
  (st : upload_state) :
  exists r,
    scrape_document combined url soup = Some r
    /\ let title := pd_page_title (sc_data r) in
       let body := main_paragraphs (pd_body_content (sc_data r)) in
       let st' := combined_step resolve_hero image_answer story_answer st
                    (Some (persist r)) in
       (title = [] \/ body = [] -> st' = skip st)
       /\ (title <> [] -> body <> [] ->
           calls st' = calls st ++ [CreateStory title body None]
           /\ (uploaded_count st' + failed_count st'
               = uploaded_count st + failed_count st + 1)%Z).
Proof.
  unfold scrape_document, extract_body_content_of.
  destruct (locate_content_found soup) as (e & ->). cbn [deref].
  eexists. split; [reflexivity|].
  cbn [sc_data pd_page_title pd_body_content]. cbv zeta.
  unfold persist, combined_step.
  cbn [sc_data pd_page_title pd_body_content js_page_title
       js_main_paragraphs or_empty].
  assert (strip is_space (extract_title soup) = extract_title soup) as Ht.
  { unfold extract_title.
    destruct (find (root soup) (lit "h1")) as [h|];
      [apply (strip_strip is_space)|].
    destruct (find (root soup) (lit "h2")) as [h|];
      [apply (strip_strip is_space) | reflexivity]. }
  assert (strip is_space (main_paragraphs (body_of combined e))
          = main_paragraphs (body_of combined e)) as Hb.
  { unfold body_of. cbn [main_paragraphs].
    apply strip_join_paragraphs, body_paragraphs_clean. }
  rewrite Ht, Hb. split.
  - intros [->| ->]; [reflexivity|].
    destruct (extract_title soup); reflexivity.
  - intros Hti Hbo.
    destruct (extract_title soup) as [|c t]; [contradiction|].
    destruct (main_paragraphs (body_of combined e)) as [|d u];
      [contradiction|].
    cbn [truthy negb]. split.
    + unfold publish. cbn [js_hero_image or_empty truthy].
      match goal with |- context [if ?b then _ else _] => destruct b end;
        reflexivity.
    + apply publish_counts.
Qed.

End EndToEnd.

(** ** The remote client: retries and slugs *)

Section RemoteProps.

Import Remote.

Context `{db : UnicodeDB}.

Variable J : Type.
Variable world : list str -> str -> answer J.
Variable story_of : J -> option J.

Lemma req_loop_first request left trace j :
  attempt J (world trace request) = inl j ->
  req_loop J world request (S left) trace
  = (Returns J (Some j), trace ++ [request]).
Proof. intros E. cbn [req_loop]. now rewrite E. Qed.

Lemma req_loop_again request left trace e :
  attempt J (world trace request) = inr e ->
  req_loop J world request (S (S left)) trace
  = req_loop J world request (S left) (trace ++ [request]).
Proof. intros E. cbn [req_loop]. now rewrite E. Qed.

(** The loop of [_req], started with at least one attempt to go: it makes
    [k] requests, one after the other fails until the last, and the last
    one decides. *)
Lemma req_loop_spec request left trace :
  exists k,
    (1 <= k <= S left)%nat
    /\ (req_loop J world request (S left) trace).2
       = trace ++ List.repeat request k
    /\ (forall i, (i < k - 1)%nat ->
          exists e, attempt J (world (trace ++ List.repeat request i) request)
                    = inr e)
    /\ match (req_loop J world request (S left) trace).1 with
       | Returns _ (Some j) =>
           attempt J (world (trace ++ List.repeat request (k - 1)) request)
           = inl j
       | Returns _ None => False
       | Raised _ e =>
           k = S left
           /\ attempt J (world (trace ++ List.repeat request (k - 1)) request)
              = inr e
       end.
Proof.
  revert trace. induction left as [|left IH]; intros trace.
  - exists 1%nat. cbn [req_loop List.repeat Nat.sub].
    rewrite app_nil_r.
    destruct (attempt J (world trace request)) as [j|e] eqn:E; cbn [fst snd].
    + repeat split; try lia; try exact E; try (intros i Hi; lia).
    + repeat split; try lia; try exact E; try (intros i Hi; lia).
  - destruct (attempt J (world trace request)) as [j|e] eqn:E.
    + exists 1%nat. rewrite (req_loop_first _ _ _ _ E).
      cbn [fst snd List.repeat Nat.sub]. rewrite app_nil_r.
      repeat split; try lia; try exact E; try (intros i Hi; lia).
    + rewrite (req_loop_again _ _ _ _ E).
      destruct (IH (trace ++ [request])) as (k & Hk & Htr & Hfail & Hlast).
      exists (S k). split; [lia|]. split.
      { rewrite Htr. cbn [List.repeat]. now rewrite <- app_assoc. }
      split.
      { intros i Hi. destruct i as [|i].
        - exists e. cbn [List.repeat]. now rewrite app_nil_r.
        - destruct (Hfail i ltac:(lia)) as (e' & He'). exists e'.
          cbn [List.repeat]. rewrite <- app_assoc in He'. exact He'. }
      replace (S k - 1)%nat with (S (k - 1)) by lia.
      cbn [List.repeat]. rewrite <- app_assoc in Hlast. cbn [app] in Hlast.
      destruct (req_loop J world request (S left) (trace ++ [request])).1
        as [[j|]|e']; try exact Hlast.
      destruct Hlast as [-> Hlast]. split; [reflexivity | exact Hlast].
Qed.

(** [_req] without attempts makes no request and returns [None]; with at
    least one it makes between one and [retries] requests, each made only
    because the one before failed, returns the answer of the first that
    succeeds, and raises the error of the last when none does. *)
Theorem req_attempts (request : str) (retries : Z) (trace : list str) :
  ((retries <= 0)%Z ->
   req J world request retries trace = (Returns J None, trace))
  /\ ((1 <= retries)%Z ->
      exists k,
        (1 <= k <= Z.to_nat retries)%nat
        /\ (req J world request retries trace).2
           = trace ++ List.repeat request k
        /\ (forall i, (i < k - 1)%nat ->
              exists e,
                attempt J (world (trace ++ List.repeat request i) request)
                = inr e)
        /\ match (req J world request retries trace).1 with
           | Returns _ (Some j) =>
               attempt J
                 (world (trace ++ List.repeat request (k - 1)) request)
               = inl j
           | Returns _ None => False
           | Raised _ e =>
               k = Z.to_nat retries
               /\ attempt J
                    (world (trace ++ List.repeat request (k - 1)) request)
                  = inr e
           end).
Proof.
  unfold req. split.
  - intros H. replace (Z.to_nat retries) with 0%nat by lia. reflexivity.
  - intros H. destruct (Z.to_nat retries) as [|left] eqn:E; [lia|].
    apply req_loop_spec.
Qed.

(** The test in front of [continue] never passes: an error response is
    falsy, and a response with status 422 is an error response. *)
Lemma slug_conflict_never resp : slug_conflict resp = false.
Proof.
  unfold slug_conflict, response_truthy. destruct resp as [r|]; [|reflexivity].
  destruct (Z.eqb_spec (status_code r) 422) as [->|];
    [reflexivity | now rewrite andb_false_r].
Qed.

(** [create_storyblok_story] only ever asks for the base slug: whatever
    the remote service answers, a slug conflict included, the first failed
    creation ends the call with [None], after at most four requests; the
    two alternate slugs are never tried. *)
Theorem create_storyblok_story_one_slug (title : str) (now random later : Z)
  (trace : list str) :
  let r := create_storyblok_story J world story_of title now random later
             trace in
  exists k,
    (1 <= k <= 4)%nat
    /\ r.2 = trace ++ List.repeat (slugify (Some title) 90 now) k
    /\ (forall story, r.1 = Some story ->
          exists result,
            attempt J
              (world (trace
                      ++ List.repeat (slugify (Some title) 90 now) (k - 1))
                 (slugify (Some title) 90 now))
            = inl result
            /\ story_of result = Some story).
Proof.
  cbv zeta. unfold create_storyblok_story. cbn [try_slugs].
  unfold create_story, req. change (Z.to_nat 4) with 4%nat.
  destruct (req_loop_spec (slugify (Some title) 90 now) 3 trace)
    as (k & Hk & Htr & _ & Hlast).
  exists k. split; [exact Hk|].
  destruct (req_loop J world (slugify (Some title) 90 now) 4 trace)
    as [[[j|]|[resp|]] trace'] eqn:E; cbn [fst snd] in *.
  - split; [exact Htr|]. intros story Hs. exists j. auto.
  - contradiction.
  - rewrite slug_conflict_never. cbn [fst snd].
    split; [exact Htr | discriminate].
  - split; [exact Htr | discriminate].
Qed.

End RemoteProps.

Lemma req_attempts_witness :
  let world := fun (trace : list str) (_ : str) =>
                 if (length trace <? 2)%nat
                 then Remote.Raises unit Remote.OtherException
                 else Remote.Responds unit (Remote.Response 200 []) (Some tt) in
  exists k,
    (1 <= k <= Z.to_nat 4)%nat
    /\ (Remote.req unit world (lit "cardiology") 4 []).2
       = [] ++ List.repeat (lit "cardiology") k
    /\ (forall i, (i < k - 1)%nat ->
          exists e,
            Remote.attempt unit
              (world ([] ++ List.repeat (lit "cardiology") i)
                 (lit "cardiology"))
            = inr e)
    /\ match (Remote.req unit world (lit "cardiology") 4 []).1 with
       | Remote.Returns _ (Some j) =>
           Remote.attempt unit
             (world ([] ++ List.repeat (lit "cardiology") (k - 1))
                (lit "cardiology"))
           = inl j
       | Remote.Returns _ None => False
       | Remote.Raised _ e =>
           k = Z.to_nat 4
           /\ Remote.attempt unit
                (world ([] ++ List.repeat (lit "cardiology") (k - 1))
                   (lit "cardiology"))
              = inr e
       end.
Proof.
  intros world.
  apply (proj2 (req_attempts unit world (lit "cardiology") 4 [])). lia.
Defined.

(** ** The environment file *)

Section EnvFileProps.

Variable putenv_fails : str -> str -> bool.

Lemma partition_at_before c s :
  List.Forall (fun x => x <> c) (partition_at c s).1.
Proof.
  induction s as [|x t IH]; simpl; [constructor|].
  destruct (N.eqb_spec x c); [constructor|].
  destruct (partition_at c t) as [a b]. simpl in *. constructor; assumption.
Qed.

(** An assignment has a key and a value, and its key has no equals sign
    and no whitespace at either end. *)
Lemma env_assignment_sound line key value :
  env_assignment line = Some (key, value) ->
  key <> [] /\ value <> []
  /\ List.Forall (fun x => x <> EQUALS) key
  /\ strip is_space key = key.
Proof.
  unfold env_assignment.
  destruct (negb (truthy (strip is_space line))
            || startswith (strip is_space line) (lit "#")
            || negb (contains (strip is_space line) [EQUALS]));
    [discriminate|].
  pose proof (partition_at_before EQUALS (strip is_space line)) as Hb.
  destruct (partition_at EQUALS (strip is_space line)) as [k v].
  cbn [fst] in Hb.
  destruct (strip is_space k) as [|c t] eqn:Ek; [discriminate|].
  cbn [truthy andb].
  match goal with |- context [truthy ?x] => destruct x eqn:Ev end;
    [discriminate|].
  intros [= <- <-]. split; [discriminate|]. split; [discriminate|]. split.
  - rewrite <- Ek. unfold strip. apply Forall_rstrip, Forall_lstrip, Hb.
  - rewrite <- Ek. apply strip_strip.
Qed.

Lemma load_env_lines_keeps lines environ k v :
  environ !! k = Some v ->
  load_env_lines putenv_fails lines environ !! k = Some v.
Proof.
  revert environ. induction lines as [|line rest IH]; intros environ H;
    cbn [load_env_lines]; [exact H|].
  destruct (env_assignment line) as [[key value]|]; [|exact (IH _ H)].
  destruct (environ !! key) eqn:Ekey; [exact (IH _ H)|].
  destruct (putenv_fails key value); [exact H|].
  apply IH. rewrite lookup_insert_ne; [exact H|]. congruence.
Qed.

Lemma load_env_lines_origin lines environ k v :
  load_env_lines putenv_fails lines environ !! k = Some v ->
  environ !! k = Some v
  \/ (environ !! k = None
      /\ exists line, In line lines /\ env_assignment line = Some (k, v)).
Proof.
  revert environ. induction lines as [|line rest IH]; intros environ;
    cbn [load_env_lines]; [auto|].
  destruct (env_assignment line) as [[key value]|] eqn:Ea.
  - destruct (environ !! key) eqn:Ekey.
    + intros H. destruct (IH _ H) as [H'|(Hn & l & Hl & Hl')]; [auto|].
      right. split; [exact Hn|]. exists l. simpl. auto.
    + destruct (putenv_fails key value); [auto|].
      intros H. destruct (IH _ H) as [H'|(Hn & l & Hl & Hl')].
      * destruct (decide (key = k)) as [->|Hne].
        -- rewrite lookup_insert_eq in H'. injection H' as <-.
           right. split; [exact Ekey|]. exists line. simpl. auto.
        -- rewrite lookup_insert_ne in H' by exact Hne. auto.
      * destruct (decide (key = k)) as [->|Hne].
        -- rewrite lookup_insert_eq in Hn. discriminate.
        -- rewrite lookup_insert_ne in Hn by exact Hne.
           right. split; [exact Hn|]. exists l. simpl. auto.
  - intros H. destruct (IH _ H) as [H'|(Hn & l & Hl & Hl')]; [auto|].
    right. split; [exact Hn|]. exists l. simpl. auto.
Qed.

(** Loading an environment file never changes a variable that is already
    set; a variable it adds comes from an assignment of the file, with a
    key and a value that are not empty. *)
Theorem load_env_file_keeps_environ (file : option (list str))
  (environ : gmap str str) (k v : str) :
  (environ !! k = Some v ->
   load_env_file putenv_fails file environ !! k = Some v)
  /\ (load_env_file putenv_fails file environ !! k = Some v ->
      environ !! k = Some v
      \/ (environ !! k = None /\ k <> [] /\ v <> []
          /\ exists lines line,
               file = Some lines /\ In line lines
               /\ env_assignment line = Some (k, v))).
Proof.
  destruct file as [lines|]; cbn [load_env_file]; split; auto.
  - apply load_env_lines_keeps.
  - intros H. destruct (load_env_lines_origin _ _ _ _ H)
      as [H'|(Hn & line & Hl & Ha)]; [auto|].
    right. destruct (env_assignment_sound _ _ _ Ha) as (Hk & Hv & _).
    repeat split; try assumption. exists lines, line. auto.
Qed.

End EnvFileProps.

(** ** The scraping run: files and counts *)

Section DecimalNames.

Lemma lit_cons a s : lit (String a s) = N_of_ascii a :: lit s.
Proof. reflexivity. Qed.

Lemma lit_inj s1 s2 : lit s1 = lit s2 -> s1 = s2.
Proof.
  revert s2. induction s1 as [|a s1 IH]; intros [|b s2]; try discriminate.
  - reflexivity.
  - rewrite !lit_cons. intros [= Hab Hs]. f_equal; [|exact (IH _ Hs)].
    rewrite <- (ascii_N_embedding a), <- (ascii_N_embedding b).
    now rewrite Hab.
Qed.

Lemma digits_of_uint d :
  List.Forall (fun c => ascii_is_digit c = true)
    (lit (NilEmpty.string_of_uint d)).
Proof.
  induction d; cbn [NilEmpty.string_of_uint]; [constructor|..];
    rewrite lit_cons; constructor; (reflexivity || assumption).
Qed.

Lemma str_of_Z_digits n :
  (0 <= n)%Z ->
  str_of_Z n <> []
  /\ List.Forall (fun c => ascii_is_digit c = true) (str_of_Z n).
Proof.
  intros Hn. unfold str_of_Z. destruct n as [|p|p]; [| |lia].
  - split; [discriminate | repeat constructor].
  - cbn [Z.to_int NilZero.string_of_int]. unfold NilZero.string_of_uint.
    pose proof (DecimalPos.Unsigned.to_uint_nonnil p) as Hnil.
    pose proof (digits_of_uint (Pos.to_uint p)) as Hd.
    destruct (Pos.to_uint p); [contradiction|..]; (split; [|exact Hd]);
      cbn [NilEmpty.string_of_uint]; rewrite lit_cons; discriminate.
Qed.

Lemma str_of_Z_inj a b : str_of_Z a = str_of_Z b -> a = b.
Proof.
  unfold str_of_Z. intros H. apply lit_inj in H.
  apply DecimalZ.to_int_inj.
  assert (forall z, Z.to_int z <> Decimal.Pos Decimal.Nil
                    /\ Z.to_int z <> Decimal.Neg Decimal.Nil) as Hnn.
  { intros [|p|p]; split; try discriminate; cbn [Z.to_int]; intros [= E];
      exact (DecimalPos.Unsigned.to_uint_nonnil p E). }
  pose proof (NilZero.isi (Z.to_int a) (proj1 (Hnn a)) (proj2 (Hnn a))) as Ha.
  pose proof (NilZero.isi (Z.to_int b) (proj1 (Hnn b)) (proj2 (Hnn b))) as Hb.
  rewrite H in Ha. congruence.
Qed.

(** A run of digits in front of an underscore is determined by the whole
    string. *)
Lemma digits_prefix_unique (d1 d2 r1 r2 : str) :
  List.Forall (fun c => ascii_is_digit c = true) d1 ->
  List.Forall (fun c => ascii_is_digit c = true) d2 ->
  d1 ++ UNDERSCORE :: r1 = d2 ++ UNDERSCORE :: r2 -> d1 = d2.
Proof.
  intros H1. revert d2. induction H1 as [|c d1 Hc H1 IH]; intros d2 H2 E.
  - destruct H2 as [|c' d2 Hc' H2]; [reflexivity|].
    injection E as <- _. discriminate.
  - destruct H2 as [|c' d2 Hc' H2].
    + injection E as -> _. discriminate.
    + injection E as <- E. f_equal. exact (IH d2 H2 E).
Qed.

Lemma json_file_name_counter n1 n2 t1 t2 :
  (0 <= n1)%Z -> (0 <= n2)%Z ->
  Run.json_file_name n1 t1 = Run.json_file_name n2 t2 -> n1 = n2.
Proof.
  intros H1 H2 E. unfold Run.json_file_name in E.
  apply str_of_Z_inj.
  apply (digits_prefix_unique _ _
           (sanitize_filename t1 ++ lit ".json")
           (sanitize_filename t2 ++ lit ".json")).
  - apply str_of_Z_digits, H1.
  - apply str_of_Z_digits, H2.
  - exact E.
Qed.

Lemma startswith_app (x y : str) : startswith (x ++ y) x = true.
Proof.
  induction x as [|c x IH]; simpl; [destruct y; reflexivity|].
  now rewrite N.eqb_refl, IH.
Qed.

Lemma endswith_app (x y : str) : endswith (x ++ y) y = true.
Proof. unfold endswith. rewrite rev_app_distr. apply startswith_app. Qed.

(** A page file is an input of the upload, and is neither of the two
    summary files. *)
Lemma json_file_name_upload_input n t :
  (0 <= n)%Z ->
  Run.is_upload_input (Run.json_file_name n t) = true
  /\ Run.json_file_name n t <> Run.METADATA
  /\ Run.json_file_name n t <> Run.SUMMARY.
Proof.
  intros Hn. destruct (str_of_Z_digits n Hn) as [Hne Hd].
  assert (forall rest (other : str),
             match other with
             | [] => True
             | c :: _ => ascii_is_digit c = false
             end ->
             str_of_Z n ++ rest <> other) as Hhead.
  { intros rest other Ho E. destruct (str_of_Z n) as [|c u]; [contradiction|].
    apply List.Forall_inv in Hd. destruct other as [|c' o]; [discriminate|].
    injection E as -> _. congruence. }
  unfold Run.json_file_name, Run.is_upload_input. repeat split.
  - apply andb_true_intro. split.
    + rewrite !app_assoc. apply endswith_app.
    + apply negb_true_iff. unfold eqb_str.
      destruct (decide _) as [E|]; [|reflexivity].
      exfalso. revert E. apply Hhead. reflexivity.
  - apply Hhead. reflexivity.
  - apply Hhead. reflexivity.
Qed.

End DecimalNames.

Section RunProps.

Import Run.

Context `{db : UnicodeDB}.

Variable fetch : str -> option node.
Variable combined : bool.

Lemma run_inv_start : run_inv start.
Proof.
  unfold run_inv, start. cbn [page_counter results files length].
  split; [reflexivity|]. split; [apply map_size_empty|]. split.
  - intros i page H. rewrite lookup_nil in H. discriminate.
  - intros name [x H]. rewrite lookup_empty in H. discriminate.
Qed.

Lemma main_step_inv st url :
  run_inv st -> run_inv (main_step fetch combined st url).
Proof.
  intros (Hc & Hsz & Hin & Hdom). unfold main_step.
  destruct (scrape_page fetch combined url) as [page|];
    [|repeat split; assumption].
  set (name := json_file_name (page_counter st)
                 (pd_page_title (sc_data page))).
  assert (files st !! name = None) as Hfresh.
  { destruct (files st !! name) eqn:E; [|reflexivity]. exfalso.
    destruct (Hdom name (mk_is_Some _ _ E)) as (i & pg & Hi & Hname).
    apply lookup_lt_Some in Hi. unfold name in Hname.
    apply json_file_name_counter in Hname; lia. }
  unfold run_inv. cbn [page_counter results files].
  rewrite length_app. cbn [length]. split; [lia|]. split.
  { rewrite map_size_insert_None by exact Hfresh. lia. }
  split.
  - intros i pg Hi. apply lookup_app_Some in Hi as [Hi|[Hlen Hi]].
    + rewrite lookup_insert_ne; [exact (Hin i pg Hi)|].
      intros E. apply lookup_lt_Some in Hi. unfold name in E.
      apply json_file_name_counter in E; lia.
    + destruct (i - length (results st))%nat as [|k] eqn:Ek;
        [|rewrite lookup_cons, lookup_nil in Hi; discriminate].
      injection Hi as <-.
      replace (Z.of_nat i + 1)%Z with (page_counter st) by lia.
      apply lookup_insert_eq.
  - intros nm Hs. destruct (decide (name = nm)) as [<-|Hne].
    + exists (length (results st)), page. split.
      * rewrite lookup_app_r by lia. now rewrite Nat.sub_diag.
      * unfold name. f_equal. lia.
    + rewrite lookup_insert_ne in Hs by exact Hne.
      destruct (Hdom nm Hs) as (i & pg & Hi & Hname).
      exists i, pg. split; [|exact Hname].
      now apply lookup_app_l_Some.
Qed.

Lemma main_fold_inv urls st :
  run_inv st -> run_inv (fold_left (main_step fetch combined) urls st).
Proof.
  revert st. induction urls as [|u us IH]; intros st H; simpl; [exact H|].
  apply IH, main_step_inv, H.
Qed.

Lemma main_fold_lengths urls st :
  let st' := fold_left (main_step fetch combined) urls st in
  (length (results st') + length (failed_urls st')
   = length (results st) + length (failed_urls st) + length urls)%nat.
Proof.
  revert st. induction urls as [|u us IH]; intros st; simpl; [lia|].
  rewrite IH. unfold main_step.
  destruct (scrape_page fetch combined u); cbn [results failed_urls];
    rewrite length_app; simpl; lia.
Qed.

(** When the loop of [main] ends, every URL is counted once, as scraped or
    as failed; the output folder holds exactly one file per scraped page,
    the [i]-th page under its own number, so equal titles overwrite
    nothing; and every file is an input of the upload, none of them being
    [metadata.json] or [summary.csv]. *)
Theorem main_loop_files (urls : list str) :
  let st := main_loop fetch combined urls in
  (length (results st) + length (failed_urls st) = length urls)%nat
  /\ page_counter st = (1 + Z.of_nat (length (results st)))%Z
  /\ size (files st) = length (results st)
  /\ (forall (i : nat) page,
        results st !! i = Some page ->
        files st
          !! json_file_name (Z.of_nat i + 1) (pd_page_title (sc_data page))
        = Some page)
  /\ (forall name,
        is_Some (files st !! name) -> is_upload_input name = true)
  /\ files st !! METADATA = None
  /\ files st !! SUMMARY = None.
Proof.
  cbv zeta. unfold main_loop.
  pose proof (main_fold_lengths urls start) as Hlen. cbv zeta in Hlen.
  destruct (main_fold_inv urls start run_inv_start)
    as (Hc & Hsz & Hin & Hdom).
  set (st := fold_left (main_step fetch combined) urls start) in *.
  assert (forall name,
             is_Some (files st !! name) ->
             is_upload_input name = true
             /\ name <> METADATA /\ name <> SUMMARY) as Hnames.
  { intros name Hs. destruct (Hdom name Hs) as (i & pg & _ & ->).
    apply json_file_name_upload_input. lia. }
  split; [simpl in Hlen; lia|]. split; [exact Hc|]. split; [exact Hsz|].
  split; [exact Hin|]. split; [intros name Hs; apply Hnames, Hs|].
  split.
  - destruct (files st !! METADATA) eqn:E; [|reflexivity].
    destruct (Hnames METADATA (mk_is_Some _ _ E)) as (_ & H & _).
    contradiction.
  - destruct (files st !! SUMMARY) eqn:E; [|reflexivity].
    destruct (Hnames SUMMARY (mk_is_Some _ _ E)) as (_ & _ & H).
    contradiction.
Qed.

End RunProps.

Section CountProps.

Import Run.

Lemma pages_of_type_cons t page rest :
  pages_of_type t (page :: rest)
  = ((if decide (page_type_classification page = t) then 1 else 0)
     + pages_of_type t rest)%nat.
Proof.
  unfold pages_of_type, eqb_str. cbn [List.filter].
  destruct (decide (page_type_classification page = t)); reflexivity.
Qed.

Lemma count_step_lookup type_counts page t :
  count_step type_counts page !! t
  = if decide (page_type_classification page = t)
    then Some (default 0 (type_counts !! t) + 1)%Z
    else type_counts !! t.
Proof.
  unfold count_step.
  destruct (decide (page_type_classification page = t)) as [->|Hne].
  - apply lookup_insert_eq.
  - now apply lookup_insert_ne.
Qed.

Lemma count_fold (pages : list scraped) (type_counts : gmap str Z) t :
  fold_left count_step pages type_counts !! t
  = if (pages_of_type t pages =? 0)%nat then type_counts !! t
    else Some (default 0 (type_counts !! t)
               + Z.of_nat (pages_of_type t pages))%Z.
Proof.
  revert type_counts.
  induction pages as [|page rest IH]; intros type_counts; [reflexivity|].
  cbn [fold_left]. rewrite IH, pages_of_type_cons, count_step_lookup.
  destruct (decide (page_type_classification page = t)) as [E|Hne].
  - cbn [default Nat.add Nat.eqb].
    destruct (Nat.eqb_spec (pages_of_type t rest) 0) as [->|_];
      f_equal; simpl; lia.
  - reflexivity.
Qed.

(** The table of page types holds, for every type, the number of scraped
    pages of that type, and has no entry for a type no page has. *)
Theorem count_types_counts (pages : list scraped) (t : str) :
  count_types pages !! t
  = if (pages_of_type t pages =? 0)%nat then None
    else Some (Z.of_nat (pages_of_type t pages)).
Proof.
  unfold count_types. rewrite count_fold, lookup_empty. reflexivity.
Qed.

End CountProps.

(** ** Slugs: the characters of a slug *)

Section SlugMore.

Context `{db : UnicodeDB}.

Lemma Forall_sub_runs_class p r s :
  List.Forall (fun c => c = r \/ p c = false) (sub_runs p r s).
Proof.
  induction s as [|c t IH]; simpl; [constructor|].
  destruct (p c) eqn:Hc.
  - destruct t as [|d u]; [repeat constructor; now left|].
    destruct (p d); [exact IH|]. constructor; [now left | exact IH].
  - constructor; [now right | exact IH].
Qed.

Lemma str_of_Z_chars z :
  List.Forall (fun c => ascii_is_digit c = true \/ c = HYPHEN) (str_of_Z z).
Proof.
  assert (forall d, List.Forall
                      (fun c => ascii_is_digit c = true \/ c = HYPHEN)
                      (lit (NilZero.string_of_uint d))) as Hu.
  { intros d. unfold NilZero.string_of_uint.
    pose proof (digits_of_uint d) as Hd.
    destruct d; [repeat constructor; now left|..];
      (revert Hd; apply List.Forall_impl; tauto). }
  unfold str_of_Z. destruct (Z.to_int z) as [d|d];
    cbn [NilZero.string_of_int]; [apply Hu|].
  rewrite lit_cons. constructor; [now right | apply Hu].
Qed.

Lemma rstrip_last p s u c : rstrip p s = u ++ [c] -> p c = false.
Proof.
  revert u. induction s as [|x t IH]; intros u; cbn [rstrip].
  - destruct u; discriminate.
  - destruct (rstrip p t) as [|y t'] eqn:E.
    + destruct (p x) eqn:Hx; [destruct u; discriminate|].
      destruct u as [|a [|b u]]; try discriminate. now intros [= <-].
    + destruct u as [|a u]; [discriminate|].
      intros [= _ H]. exact (IH u H).
Qed.

Lemma slice_to_Forall (P : char -> Prop) n s :
  List.Forall P s -> List.Forall P (slice_to n s).
Proof. intros H. unfold slice_to. destruct (0 <=? n)%Z; now apply Forall_firstn. Qed.

Lemma slice_to_head n s c t :
  slice_to n s = c :: t -> exists u, s = c :: u.
Proof.
  unfold slice_to. destruct (0 <=? n)%Z.
  - destruct (Z.to_nat n), s; simpl; try discriminate.
    intros [= <- _]. eauto.
  - destruct (length s - Z.to_nat (- n))%nat, s; simpl; try discriminate.
    intros [= <- _]. eauto.
Qed.

Lemma rstrip_head_of p s c t :
  rstrip p s = c :: t -> exists u, s = c :: u.
Proof.
  destruct s as [|x s]; cbn [rstrip]; [discriminate|].
  destruct (rstrip p s); [destruct (p x); [discriminate|]|];
    intros [= <- _]; eauto.
Qed.

(** A slug has no whitespace and no underscore in it, and when it is not
    empty it neither starts nor ends with a hyphen, whatever the title, the
    limit and the clock. *)
Theorem slugify_characters (s : option str) (max_len now : Z) :
  List.Forall (fun c => is_space c = false /\ c <> UNDERSCORE)
    (slugify s max_len now)
  /\ (forall c t, slugify s max_len now = c :: t -> c <> HYPHEN)
  /\ (forall u c, slugify s max_len now = u ++ [c] -> c <> HYPHEN).
Proof.
  rewrite slugify_slug_base. split; [|split].
  - apply Forall_rstrip, slice_to_Forall. unfold slug_base.
    match goal with |- context [truthy ?x] => destruct (truthy x) end.
    + unfold strip. apply Forall_rstrip, Forall_lstrip.
      match goal with |- List.Forall _ (sub_runs ?p ?r ?x) =>
        pose proof (Forall_sub_runs_class p r x) as H
      end.
      revert H. apply List.Forall_impl. intros c [->|Hc].
      * split; [reflexivity | discriminate].
      * apply orb_false_elim in Hc as [Hc _].
        apply orb_false_elim in Hc as [Hsp Hus].
        split; [exact Hsp|]. intros ->. discriminate.
    + apply List.Forall_app. split.
      * repeat constructor; discriminate.
      * pose proof (str_of_Z_chars now) as H. revert H.
        apply List.Forall_impl. intros c [Hd| ->].
        -- unfold ascii_is_digit in Hd.
           apply andb_prop in Hd as [H1 H2].
           apply N.leb_le in H1, H2. split.
           ++ unfold is_space.
              repeat match goal with
                     | |- context [(?a <=? c)] =>
                         destruct (N.leb_spec a c); try lia
                     | |- context [(c <=? ?a)] =>
                         destruct (N.leb_spec c a); try lia
                     | |- context [(c =? ?a)] =>
                         destruct (N.eqb_spec c a); try lia
                     end; reflexivity.
           ++ intros ->. unfold UNDERSCORE in *. lia.
        -- split; [reflexivity | discriminate].
  - intros c t E. apply rstrip_head_of in E as (u & E).
    apply slice_to_head in E as (u' & E).
    destruct (slug_base_head s now) as (c' & t' & E' & Hc).
    rewrite E' in E. injection E as -> _. intros ->. discriminate.
  - intros u c E. apply rstrip_last in E. intros ->. discriminate.
Qed.

End SlugMore.

(** ** Faculty links: the two patterns do not see each other *)

Section FacultyPatterns.

Context `{db : UnicodeDB}.

Lemma tag_in_nones_false l : tag_in_nones l = false.
Proof. unfold tag_in_nones. induction l; simpl; auto. Qed.

Lemma faculty_pattern2_step_append acc link :
  faculty_pattern2_step acc link = acc ++ faculty_pattern2_step [] link.
Proof.
  unfold faculty_pattern2_step. rewrite !tag_in_nones_false.
  cbn [negb]. rewrite !andb_true_r.
  destruct (contains (get_or_empty (self link) (lit "href")) FINDADOCTOR);
    [|now rewrite app_nil_r].
  match goal with |- context [if ?b then _ else _] => destruct b end;
    [reflexivity | now rewrite app_nil_r].
Qed.

Lemma faculty_pattern2_fold links acc :
  fold_left faculty_pattern2_step links acc
  = acc ++ flat_map (faculty_pattern2_step []) links.
Proof.
  revert acc. induction links as [|l ls IH]; intros acc; simpl.
  - now rewrite app_nil_r.
  - rewrite IH, faculty_pattern2_step_append, <- app_assoc. reflexivity.
Qed.

(** The test [link not in [...]] of the second pattern never rejects a
    link: what the second pattern collects does not depend on what the
    first has collected, so a link both patterns match is collected twice
    and only the pass over (url, text) pairs removes the repetition. *)
Theorem collect_faculty_links_patterns (soup : node) :
  collect_faculty_links soup
  = faculty_pattern1 soup
    ++ flat_map (faculty_pattern2_step [])
         (find_all_where (root soup) (lit "a") has_href)
  /\ (forall acc link,
        faculty_pattern2_step acc link
        = acc ++ faculty_pattern2_step [] link).
Proof.
  split.
  - apply faculty_pattern2_fold.
  - apply faculty_pattern2_step_append.
Qed.

End FacultyPatterns.

(** ** Body content: the three tiers of the appointment check *)

Section AppointmentTiers.

Context `{db : UnicodeDB}.

Lemma startswith_app_l (a b n : str) :
  startswith a n = true -> startswith (a ++ b) n = true.
Proof.
  revert n. induction a as [|c a IH]; intros [|x n]; simpl; try discriminate.
  - destruct b; reflexivity.
  - reflexivity.
  - intros H. apply andb_prop in H as [H1 H2]. now rewrite H1, (IH _ H2).
Qed.

Lemma contains_app_l (a b n : str) :
  contains a n = true -> contains (a ++ b) n = true.
Proof.
  induction a as [|c a IH]; cbn [contains app].
  - rewrite orb_false_r. intros H. destruct n; [|discriminate].
    destruct b; reflexivity.
  - intros H. apply orb_prop in H as [H|H].
    + change (c :: a ++ b) with ((c :: a) ++ b).
      now rewrite (startswith_app_l (c :: a) b n H).
    + rewrite (IH H). apply orb_true_r.
Qed.

Lemma contains_app_r (a b n : str) :
  contains b n = true -> contains (a ++ b) n = true.
Proof.
  intros H. induction a as [|c a IH]; [exact H|].
  cbn [contains app]. rewrite IH. apply orb_true_r.
Qed.

Lemma contains_join sep ps p n :
  In p ps -> contains p n = true -> contains (join sep ps) n = true.
Proof.
  intros Hin Hp. induction ps as [|q ps IH]; [destruct Hin|].
  destruct ps as [|r ps].
  - destruct Hin as [->|[]]. exact Hp.
  - change (join sep (q :: r :: ps)) with (q ++ sep ++ join sep (r :: ps)).
    destruct Hin as [->|Hin].
    + now apply contains_app_l.
    + apply contains_app_r, contains_app_r, IH, Hin.
Qed.

(** In the second tier only "Click here" and "call to book" matter: a
    paragraph that has the request phrase with the phone number or the
    application name already passes the third tier, on the joined text. *)
Theorem appointment_mention_tiers (content_div : elem) (paragraphs : list str) :
  appointment_mention content_div paragraphs
  = appointment_by_strong content_div
    || existsb
         (fun p => contains p REQUEST
                   && (contains p (lit "Click here")
                       || contains p (lit "call to book")))
         paragraphs
    || appointment_by_text (join [NEWLINE; NEWLINE] paragraphs).
Proof.
  unfold appointment_mention.
  destruct (appointment_by_strong content_div); [reflexivity|].
  cbn [negb orb].
  destruct (appointment_by_paragraph paragraphs) eqn:E2.
  - cbn [negb]. symmetry. apply orb_true_iff.
    unfold appointment_by_paragraph in E2.
    apply existsb_exists in E2 as (p & Hin & Hp).
    apply andb_prop in Hp as [Hreq Hdet].
    destruct (contains p (lit "Click here") || contains p (lit "call to book"))
      eqn:Eclick.
    + left. apply existsb_exists. exists p. now rewrite Hreq.
    + right. unfold appointment_by_text.
      rewrite (contains_join _ _ _ _ Hin Hreq). cbn [andb].
      apply orb_false_elim in Eclick as [Ec Eb].
      rewrite Ec, Eb, !orb_false_r in Hdet.
      apply orb_prop in Hdet as [H|H];
        rewrite (contains_join _ _ _ _ Hin H); [reflexivity|].
      apply orb_true_r.
  - cbn [negb].
    assert (existsb
              (fun p => contains p REQUEST
                        && (contains p (lit "Click here")
                            || contains p (lit "call to book")))
              paragraphs = false) as ->; [|reflexivity].
    apply not_true_is_false. intros H.
    apply existsb_exists in H as (p & Hin & Hp).
    apply andb_prop in Hp as [Hreq Hdet].
    assert (appointment_by_paragraph paragraphs = true) as H';
      [|congruence].
    apply existsb_exists. exists p. split; [exact Hin|].
    rewrite Hreq. cbn [andb].
    apply orb_prop in Hdet as [->| ->]; rewrite ?orb_true_r; reflexivity.
Qed.

End AppointmentTiers.
